(** * obs-demo backend: the endpoint layer of [src/backend/endpoints.py]

    A shallow embedding of the discovery, classify, enhance and ontology
    endpoints, with the Python values, exceptions and dictionaries they
    manipulate, and the properties of the specification proved over it. *)

From Stdlib Require Import ZArith String Ascii List Bool Lia.
From Stdlib Require Import Floats.SpecFloat.
From stdpp Require Import gmap strings list fin_maps pretty.

Set Warnings "-register-all".
Set Default Proof Using "Type".

Local Open Scope string_scope.
Local Open Scope list_scope.
Local Open Scope Z_scope.

(** ** Python values

    The [Any] of the type annotations: what a decoded JSON body can hold.
    Floats are IEEE binary64 numbers, in the executable specification of
    the standard library. *)

Inductive value :=
| VNone
| VBool (b : bool)
| VInt (z : Z)
| VFloat (f : spec_float)
| VStr (s : string)
| VList (l : list value)
| VDict (d : gmap string value).

Abbreviation dict := (gmap string value).

Definition prec : Z := 53.
Definition emax : Z := 1024.

(** The float literals of the source. *)
Definition float_0_0 : spec_float := S754_zero false.
Definition float_0_5 : spec_float := S754_finite false 4503599627370496 (-53).
Definition float_0_7 : spec_float := S754_finite false 6305039478318694 (-53).

(** [type(v).__name__] *)
Definition type_name (v : value) : string :=
  match v with
  | VNone => "NoneType"
  | VBool _ => "bool"
  | VInt _ => "int"
  | VFloat _ => "float"
  | VStr _ => "str"
  | VList _ => "list"
  | VDict _ => "dict"
  end.

(** [bool(v)]: the truth value of an object. *)
Definition truthy (v : value) : bool :=
  match v with
  | VNone => false
  | VBool b => b
  | VInt z => negb (z =? 0)
  | VFloat f => match f with S754_zero _ => false | _ => true end
  | VStr s => match s with EmptyString => false | _ => true end
  | VList l => match l with [] => false | _ => true end
  | VDict d => negb (Nat.eqb (size d) 0)
  end.

(** [d.get(k)] followed by a truth test: an absent key reads as [None]. *)
Definition get_truthy (d : dict) (k : string) : bool :=
  match d !! k with
  | Some v => truthy v
  | None => false
  end.

(** ** Exceptions

    The classes the builtins, the decoders and the remote read raise:
    [UnicodeDecodeError] and [json.JSONDecodeError] derive from
    [ValueError]; [OverflowError] (an [ArithmeticError]), [TypeError],
    [yaml.YAMLError], [OSError] (with [URLError] and the timeouts below
    it) and [http.client.IncompleteRead] derive from none of the others. *)

Inductive exn_class :=
| ValueError
| TypeError
| OverflowError
| UnicodeDecodeError
| JSONDecodeError
| YAMLError
| OSError
| IncompleteRead.

Global Instance exn_class_eq_dec : EqDecision exn_class.
Proof. solve_decision. Defined.

(** The nearest base class among those above, [None] for a class that
    has none of them as a base. *)
Definition base_class (c : exn_class) : option exn_class :=
  match c with
  | UnicodeDecodeError => Some ValueError
  | JSONDecodeError => Some ValueError
  | _ => None
  end.

Definition issubclass (c d : exn_class) : bool :=
  bool_decide (c = d) || bool_decide (base_class c = Some d).

Inductive exn :=
| Exn (cls : exn_class) (msg : string)
| HTTPException (status_code : Z) (detail : string).

(** [str(exc)] *)
Definition exn_str (e : exn) : string :=
  match e with
  | Exn _ msg => msg
  | HTTPException c d => pretty c +:+ ": " +:+ d
  end.

(** Does an [except (c1, ..., cn)] clause catch [e]?  [HTTPException]
    derives from [Exception] only. *)
Definition caught_by (handlers : list exn_class) (e : exn) : bool :=
  match e with
  | Exn c _ => existsb (issubclass c) handlers
  | HTTPException _ _ => false
  end.

Inductive result (A : Type) :=
| Ok (a : A)
| Raise (e : exn).
Arguments Ok {A} a.
Arguments Raise {A} e.

Definition rbind {A B} (r : result A) (k : A -> result B) : result B :=
  match r with
  | Ok a => k a
  | Raise e => Raise e
  end.

(** [try: body  except handlers as exc: handler exc] *)
Definition try_except {A} (body : result A) (handlers : list exn_class)
    (handler : exn -> result A) : result A :=
  match body with
  | Ok a => Ok a
  | Raise e => if caught_by handlers e then handler e else Raise e
  end.

Definition HTTP_400_BAD_REQUEST : Z := 400.
Definition HTTP_404_NOT_FOUND : Z := 404.
Definition HTTP_422_UNPROCESSABLE_ENTITY : Z := 422.
Definition HTTP_500_INTERNAL_SERVER_ERROR : Z := 500.
Definition HTTP_502_BAD_GATEWAY : Z := 502.

(** ** The builtins and libraries that read text

    [int(str)], [float(str)], [repr(str)] and [bytes.decode] belong to
    the interpreter, [json.loads] and [yaml.safe_load] to its libraries;
    the endpoints are verified for every behaviour of them.  For the
    first two [None] is a [ValueError]; the decoders return a value or
    raise. *)

Class PyRuntime := {
  int_of_str : string -> option Z;
  float_of_str : string -> option spec_float;
  repr_str : string -> string;
  decode_utf8_replace : list Byte.byte -> string;
  json_loads : list Byte.byte -> result value;
  yaml_safe_load : string -> result value
}.

Section Builtins.
Context `{PyRuntime}.

(** [float(int)]: correctly rounded, [OverflowError] when the rounded
    value is not finite. *)
Definition float_of_int (z : Z) : result spec_float :=
  match binary_normalize prec emax z 0 false with
  | S754_infinity _ => Raise (Exn OverflowError "int too large to convert to float")
  | f => Ok f
  end.

(** [float(v)] *)
Definition py_float (v : value) : result spec_float :=
  match v with
  | VFloat f => Ok f
  | VInt z => float_of_int z
  | VBool b => float_of_int (if b then 1 else 0)
  | VStr s =>
      match float_of_str s with
      | Some f => Ok f
      | None => Raise (Exn ValueError ("could not convert string to float: " +:+ repr_str s))
      end
  | _ => Raise (Exn TypeError
           ("float() argument must be a string or a real number, not '"
              +:+ type_name v +:+ "'"))
  end.

(** [int(float)]: truncation toward zero. *)
Definition int_of_float (f : spec_float) : result Z :=
  match f with
  | S754_zero _ => Ok 0
  | S754_finite s m e =>
      let mag := if 0 <=? e then Z.shiftl (Z.pos m) e else Z.shiftr (Z.pos m) (- e) in
      Ok (if s then - mag else mag)
  | S754_infinity _ => Raise (Exn OverflowError "cannot convert float infinity to integer")
  | S754_nan => Raise (Exn ValueError "cannot convert float NaN to integer")
  end.

(** [int(v)] *)
Definition py_int (v : value) : result Z :=
  match v with
  | VInt z => Ok z
  | VBool b => Ok (if b then 1 else 0)
  | VFloat f => int_of_float f
  | VStr s =>
      match int_of_str s with
      | Some z => Ok z
      | None => Raise (Exn ValueError
                  ("invalid literal for int() with base 10: " +:+ repr_str s))
      end
  | _ => Raise (Exn TypeError
           ("int() argument must be a string, a bytes-like object or a real number, not '"
              +:+ type_name v +:+ "'"))
  end.

(** [z < f] for an integer [z] and a float [f], compared exactly. *)
Definition int_lt_float (z : Z) (f : spec_float) : bool :=
  match f with
  | S754_nan => false
  | S754_infinity s => negb s
  | S754_zero _ => z <? 0
  | S754_finite s m e =>
      let fm := if s then Z.neg m else Z.pos m in
      if 0 <=? e then z <? Z.shiftl fm e else Z.shiftl z (- e) <? fm
  end.

(** [v < f] for a float [f]: numbers compare by value, anything else is a
    [TypeError]. *)
Definition py_lt_float (v : value) (f : spec_float) : result bool :=
  match v with
  | VFloat g => Ok (SFltb g f)
  | VInt z => Ok (int_lt_float z f)
  | VBool b => Ok (int_lt_float (if b then 1 else 0) f)
  | _ => Raise (Exn TypeError
           ("'<' not supported between instances of '" +:+ type_name v
              +:+ "' and 'float'"))
  end.

End Builtins.

(** ** The graph model

    Modelled from the spec: [Node], [Edge], [GraphMeta] and [Graph] are
    the classes of [obs.graph], imported by the module; their fields are
    those of section 3 of the specification, which the wire classes
    below mirror one for one. *)

Module Node.
Record t := mk {
  id : string;
  type : string;
  tags : list string;
  attrs : dict
}.
End Node.

Module Edge.
Record t := mk {
  source : string;
  target : string;
  type : string;
  attrs : dict
}.
End Edge.

Module GraphMeta.
Record t := mk {
  created_at : string;
  source : string;
  input : dict;
  timings : dict;
  success : bool;
  errors : list string;
  error_details : list dict;
  extra : dict
}.
End GraphMeta.

Module Graph.
Record t := mk {
  nodes : list Node.t;
  edges : list Edge.t;
  meta : GraphMeta.t
}.
End Graph.

(** [list(xs)] and [dict(d)] build a fresh container with the same
    elements.  Nothing in the module mutates a container after copying
    it, so a copy is the same value. *)
Definition py_list {A} (xs : list A) : list A := xs.
Definition py_dict {V} (d : gmap string V) : gmap string V := d.

(** ** The wire classes

    A pydantic class is a record together with its constructor: a
    keyword left out ([None] here) takes the default of the class body,
    [Field(default_factory=list)], [Field(default_factory=dict)], the empty text
    or [True].  The same constructor decodes a JSON object, where a key
    left out is a keyword left out. *)

Module NodeResponse.
Record t := mk {
  id : string;
  type : string;
  tags : list string;
  attrs : dict
}.

Definition new (id type : string) (tags : option (list string))
    (attrs : option dict) : t :=
  mk id type (default [] tags) (default ∅ attrs).

Definition from_node (node : Node.t) : t :=
  new (Node.id node) (Node.type node)
      (Some (py_list (Node.tags node))) (Some (py_dict (Node.attrs node))).

Definition to_node (self : t) : Node.t :=
  Node.mk (id self) (type self) (py_list (tags self)) (py_dict (attrs self)).
End NodeResponse.

Module EdgeResponse.
Record t := mk {
  source : string;
  target : string;
  type : string;
  attrs : dict
}.

Definition new (source target type : string) (attrs : option dict) : t :=
  mk source target type (default ∅ attrs).

Definition from_edge (edge : Edge.t) : t :=
  new (Edge.source edge) (Edge.target edge) (Edge.type edge)
      (Some (py_dict (Edge.attrs edge))).

Definition to_edge (self : t) : Edge.t :=
  Edge.mk (source self) (target self) (type self) (py_dict (attrs self)).
End EdgeResponse.

Module GraphMetaResponse.
Record t := mk {
  created_at : string;
  source : string;
  input : dict;
  timings : dict;
  success : bool;
  errors : list string;
  error_details : list dict;
  extra : dict
}.

Definition new (created_at source : option string) (input timings : option dict)
    (success : option bool) (errors : option (list string))
    (error_details : option (list dict)) (extra : option dict) : t :=
  mk (default EmptyString created_at) (default EmptyString source)
     (default ∅ input) (default ∅ timings)
     (default true success) (default [] errors)
     (default [] error_details) (default ∅ extra).

Definition from_meta (meta : GraphMeta.t) : t :=
  new (Some (GraphMeta.created_at meta))
      (Some (GraphMeta.source meta))
      (Some (py_dict (GraphMeta.input meta)))
      (Some (py_dict (GraphMeta.timings meta)))
      (Some (GraphMeta.success meta))
      (Some (py_list (GraphMeta.errors meta)))
      (Some (py_list (GraphMeta.error_details meta)))
      (Some (py_dict (GraphMeta.extra meta))).

Definition to_meta (self : t) : GraphMeta.t :=
  GraphMeta.mk (created_at self) (source self)
    (py_dict (input self)) (py_dict (timings self))
    (success self) (py_list (errors self))
    (py_list (error_details self)) (py_dict (extra self)).
End GraphMetaResponse.

Module GraphResponse.
Record t := mk {
  nodes : list NodeResponse.t;
  edges : list EdgeResponse.t;
  meta : GraphMetaResponse.t
}.

Definition new (nodes : option (list NodeResponse.t))
    (edges : option (list EdgeResponse.t))
    (meta : option GraphMetaResponse.t) : t :=
  mk (default [] nodes) (default [] edges)
     (default (GraphMetaResponse.new None None None None None None None None) meta).

Definition from_graph (graph : Graph.t) : t :=
  new (Some (map NodeResponse.from_node (Graph.nodes graph)))
      (Some (map EdgeResponse.from_edge (Graph.edges graph)))
      (Some (GraphMetaResponse.from_meta (Graph.meta graph))).

Definition to_graph (self : t) : Graph.t :=
  Graph.mk (map NodeResponse.to_node (nodes self))
           (map EdgeResponse.to_edge (edges self))
           (GraphMetaResponse.to_meta (meta self)).
End GraphResponse.

(** The values the specification documents for fields left out. *)
Definition default_GraphMeta : GraphMeta.t :=
  GraphMeta.mk EmptyString EmptyString ∅ ∅ true [] [] ∅.

(** ** Records of the discovery, classifier and LLM packages

    Modelled from the spec: [Device] and its [protocol_ref]
    ([obs.discovery.types]), the results of the scan, classification and
    enhancement services and the option classes [ClassifyOptions],
    [TopologyInput] and [LLMOptions] are imported by the module; their
    fields are those of section 6 of the specification and of the
    keywords the module passes.  The protocol-level device identifier is
    an integer or a text. *)

Inductive device_id_t :=
| IdInt (z : Z)
| IdStr (s : string).

Module ProtocolRef.
Record t := mk {
  address : string;
  device_id : option device_id_t
}.
End ProtocolRef.

Module Device.
Record t := mk {
  uid : string;
  name : option string;
  manufacturer : option string;
  points : list string;
  protocol_ref : option ProtocolRef.t
}.
End Device.

Module ScanResult.
Record t := mk {
  success : bool;
  data : list Device.t;
  errors : list string
}.
End ScanResult.

Module ObjectsResult.
Record t := mk {
  success : bool;
  data : value;
  errors : list string
}.
End ObjectsResult.

Module ClassifierTopologyInput.
Record t := mk {
  id : value;
  url : value;
  content : value;
  format : value
}.
End ClassifierTopologyInput.

Module ClassifierOptions.
Record t := mk {
  min_confidence : spec_float;
  use_llm : bool;
  metadata : dict
}.
End ClassifierOptions.

Module ClassifyResult.
Record t := mk {
  success : bool;
  graph : Graph.t;
  errors : list string
}.
End ClassifyResult.

Module LLMOptions.
Record t := mk {
  backend : value;
  model : value;
  base_url : value;
  min_confidence_threshold : spec_float;
  batch_size : Z;
  force : bool
}.
End LLMOptions.

Module Enhancement.
Record t := mk {
  node_id : string;
  original_class : option string;
  original_confidence : spec_float;
  suggested_class : string;
  llm_confidence : spec_float;
  reasoning : string;
  applied : bool
}.
End Enhancement.

Module EnhanceResult.
Record t := mk {
  success : bool;
  graph : Graph.t;
  enhancements : list Enhancement.t;
  metadata : gmap string Z;
  errors : list string
}.
End EnhanceResult.

(** ** Request and response classes of the module *)

Module DeviceCensusEntry.
Record t := mk {
  device_address : string;
  device_id : Z;
  device_name : option string;
  vendor : option string;
  object_count : Z;
  device_uid : option string
}.
End DeviceCensusEntry.

Module ClassifyRequest.
Record t := mk {
  graph : GraphResponse.t;
  topology : dict;
  options : dict
}.
End ClassifyRequest.

Module ClassifyResponse.
Record t := mk {
  graph : GraphResponse.t
}.
End ClassifyResponse.

Module EnhanceRequest.
Record t := mk {
  graph : GraphResponse.t;
  options : dict
}.
End EnhanceRequest.

Module EnhancementResponse.
Record t := mk {
  node_id : string;
  original_class : option string;
  original_confidence : spec_float;
  suggested_class : string;
  llm_confidence : spec_float;
  reasoning : string;
  applied : bool
}.
End EnhancementResponse.

Module EnhanceResponse.
Record t := mk {
  graph : GraphResponse.t;
  enhancements : list EnhancementResponse.t;
  success : bool;
  errors : list string;
  nodes_evaluated : Z;
  nodes_enhanced : Z
}.
End EnhanceResponse.

Module OntologyInfo.
Record t := mk {
  id : string;
  name : string;
  version : option string;
  url : option string
}.
End OntologyInfo.

(** The registry of the module. *)
Definition _ONTOLOGIES : gmap string OntologyInfo.t :=
  {[ "brick_v1.4.4" :=
       OntologyInfo.mk "brick_v1.4.4" "Brick" (Some "1.4.4")
         (Some "https://brickschema.org/schema/1.4.4/Brick.jsonld") ]}.

(** ** The process state and what a request does to the outside

    The one piece of module state is [_last_device_uids_by_id].  Calls
    to the external services and log records are kept in order, so that
    a property can say which service was reached and with what. *)

Inductive event :=
| Log (msg : string) (args : list value)
| CallScanNetwork (timeout : Z) (client_ip bbmd_ip : option string)
| CallDiscoverObjects (uid : string) (client_ip bbmd_ip : option string)
    (rpm_batch_size : Z)
| CallClassify (graph : Graph.t) (topology : ClassifierTopologyInput.t)
    (options : ClassifierOptions.t)
| CallEnhance (graph : Graph.t) (options : LLMOptions.t)
| CallUrlopen (url : string) (timeout : Z).

Record world := World {
  _last_device_uids_by_id : gmap Z string;
  events : list event
}.

Definition initial_world : world := World ∅ [].

Definition M (A : Type) : Type := world -> result A * world.

Global Instance result_ret : MRet result := fun A a => Ok a.
Global Instance result_bind : MBind result := fun A B k r => rbind r k.

Global Instance M_ret : MRet M := fun A a w => (Ok a, w).
Global Instance M_bind : MBind M := fun A B k m w =>
  match m w with
  | (Ok a, w') => k a w'
  | (Raise e, w') => (Raise e, w')
  end.

Definition raise {A} (e : exn) : M A := fun w => (Raise e, w).

Definition lift {A} (r : result A) : M A := fun w => (r, w).

Definition emit (e : event) : M unit :=
  fun w => (Ok tt, World (_last_device_uids_by_id w) (events w ++ [e])).

(** [logger.info(msg, *args)] *)
Definition logger_info (msg : string) (args : list value) : M unit :=
  emit (Log msg args).

(** [try: body  except handlers as exc: handler exc], in a request. *)
Definition try_exceptM {A} (body : M A) (handlers : list exn_class)
    (handler : exn -> M A) : M A :=
  fun w =>
    match body w with
    | (Ok a, w') => (Ok a, w')
    | (Raise e, w') => if caught_by handlers e then handler e w' else (Raise e, w')
    end.

(** [_last_device_uids_by_id.get(device_id)] *)
Definition cache_get (device_id : Z) : M (option string) :=
  fun w => (Ok (_last_device_uids_by_id w !! device_id), w).

(** [d.clear()] and [d.update(other)] on a dictionary value: the keys of
    [other] take its values, the remaining keys keep theirs. *)
Definition dict_clear {K V} `{Countable K} (d : gmap K V) : gmap K V := ∅.
Definition dict_update {K V} `{Countable K} (d other : gmap K V) : gmap K V :=
  other ∪ d.

(** The body of [async with _last_census_lock:] in [discover_census]. *)
Definition cache_replace (uid_map : gmap Z string) : M unit :=
  fun w =>
    let d := dict_clear (_last_device_uids_by_id w) in
    let d := dict_update d uid_map in
    (Ok tt, World d (events w)).

(** [sep.join(xs)] and [s or fallback] on texts. *)
Definition str_join (sep : string) (xs : list string) : string :=
  String.concat sep xs.

Definition str_or (s fallback : string) : string :=
  match s with
  | EmptyString => fallback
  | _ => s
  end.

(** [d.get(k)] and [d.get(k, dflt)] *)
Definition dict_get (d : dict) (k : string) : value :=
  default VNone (d !! k).

Definition dict_get_default (d : dict) (k : string) (dflt : value) : value :=
  default dflt (d !! k).

(** ** The external services

    What the scan, classification and enhancement services and the
    remote ontology host answer to one request.  [urlopen_read url t] is
    [urllib.request.urlopen(url, timeout=t)] followed by [read()]: the
    body, or the exception either of them raised. *)

Inductive Protocol :=
| BACNET.

Record Services := {
  scan_network : Protocol -> Z -> option string -> option string -> ScanResult.t;
  discover_objects : string -> option string -> option string -> Z -> ObjectsResult.t;
  objects_result_to_graph : ObjectsResult.t -> Graph.t;
  classify_graph_sync :
    Graph.t -> ClassifierTopologyInput.t -> ClassifierOptions.t -> ClassifyResult.t;
  enhance_graph_sync : Graph.t -> LLMOptions.t -> EnhanceResult.t;
  urlopen_read : string -> Z -> result (list Byte.byte)
}.

(** ** The endpoints

    Requests are run one at a time.  The lock of the module makes the
    lookup, and the clear followed by the update, indivisible; a
    sequential run sees exactly that.  The bounds the framework puts on
    the query parameters ([timeout] between 1 and 600, [rpm_batch_size]
    between 1 and 100) are checked before a function is entered and are
    no part of it. *)

Section Endpoints.
Context `{PyRuntime}.
Variable env : Services.
Variable ontologies : gmap string OntologyInfo.t.

Definition value_of_device_id (d : device_id_t) : value :=
  match d with
  | IdInt z => VInt z
  | IdStr s => VStr s
  end.

(** [repr] of a device identifier, the [!r] of the message. *)
Definition repr_device_id (d : device_id_t) : string :=
  match d with
  | IdInt z => pretty z
  | IdStr s => repr_str s
  end.

Definition _device_to_census (device : Device.t) : result DeviceCensusEntry.t :=
  let missing : result DeviceCensusEntry.t :=
    Raise (Exn ValueError
      ("Device " +:+ Device.uid device +:+ " is missing protocol_ref.device_id")) in
  match Device.protocol_ref device with
  | None => missing
  | Some protocol_ref =>
      match ProtocolRef.device_id protocol_ref with
      | None => missing
      | Some raw_id =>
          device_id ← try_except (py_int (value_of_device_id raw_id)) [ValueError]
            (fun exc => Raise (Exn ValueError
               ("Device " +:+ Device.uid device
                  +:+ " has non-integer protocol_ref.device_id="
                  +:+ repr_device_id raw_id)));
          mret (DeviceCensusEntry.mk
                  (ProtocolRef.address protocol_ref)
                  device_id
                  (Device.name device)
                  (Device.manufacturer device)
                  (Z.of_nat (length (Device.points device)))
                  (Some (Device.uid device)))
      end
  end.

(** The [for device in result.data] loop of [discover_census], with its
    two accumulators. *)
Fixpoint census_loop (devices : list Device.t)
    (census : list DeviceCensusEntry.t) (uid_map : gmap Z string)
    : result (list DeviceCensusEntry.t * gmap Z string) :=
  match devices with
  | [] => Ok (census, uid_map)
  | device :: rest =>
      match _device_to_census device with
      | Raise e => Raise e
      | Ok census_row =>
          census_loop rest (census ++ [census_row])
            (<[DeviceCensusEntry.device_id census_row := Device.uid device]> uid_map)
      end
  end.

Definition discover_census (timeout : Z) (client_ip bbmd_ip : option string)
    : M (list DeviceCensusEntry.t) :=
  logger_info "Starting network discovery (timeout=%ss)" [VInt timeout];;
  emit (CallScanNetwork timeout client_ip bbmd_ip);;
  let result := scan_network env BACNET timeout client_ip bbmd_ip in
  if negb (ScanResult.success result) then
    let detail := str_or (str_join "; " (ScanResult.errors result))
                    "Unknown BACnet scan failure" in
    raise (HTTPException HTTP_500_INTERNAL_SERVER_ERROR
             ("Network scan failed: " +:+ detail))
  else
    '(census, uid_map) ← lift (census_loop (ScanResult.data result) [] ∅);
    cache_replace uid_map;;
    logger_info "Network discovery complete: %s devices found"
      [VInt (Z.of_nat (length census))];;
    mret census.

Definition discover_device_objects (device_id : Z)
    (client_ip bbmd_ip : option string) (rpm_batch_size : Z) : M GraphResponse.t :=
  uid ← cache_get device_id;
  match uid with
  | None =>
      raise (HTTPException HTTP_404_NOT_FOUND
               ("Device " +:+ pretty device_id
                  +:+ " not found in last census. Run GET /discover first."))
  | Some uid =>
      logger_info "Starting object scan for device_id=%s uid=%s"
        [VInt device_id; VStr uid];;
      emit (CallDiscoverObjects uid client_ip bbmd_ip rpm_batch_size);;
      let result := discover_objects env uid client_ip bbmd_ip rpm_batch_size in
      if negb (ObjectsResult.success result) then
        let detail := str_or (str_join "; " (ObjectsResult.errors result))
                        "Unknown BACnet object discovery failure" in
        raise (HTTPException HTTP_500_INTERNAL_SERVER_ERROR
                 ("Failed to scan device " +:+ pretty device_id +:+ ": " +:+ detail))
      else
        mret (GraphResponse.from_graph (objects_result_to_graph env result))
  end.

(** [[x for x in xs if p(x)]] where the test can raise: the elements are
    tested in order and the first exception ends the comprehension. *)
Fixpoint filter_r {A} (p : A -> result bool) (xs : list A) : result (list A) :=
  match xs with
  | [] => Ok []
  | x :: rest =>
      b ← p x;
      kept ← filter_r p rest;
      mret (if b : bool then x :: kept else kept)
  end.

(** [known and known.url]: the entry is there and its url is a non-empty
    text. *)
Definition known_url (topology_id : string) : option string :=
  match ontologies !! topology_id with
  | Some known =>
      match OntologyInfo.url known with
      | Some u => if truthy (VStr u) then Some u else None
      | None => None
      end
  | None => None
  end.

(** Lines 295-304 of [classify_graph_endpoint]: the topology payload
    after the registry lookup. *)
Definition classify_topology_payload (topology : dict) : dict :=
  let topology_payload := py_dict topology in
  match dict_get topology_payload "id" with
  | VStr topology_id =>
      if negb (get_truthy topology_payload "url")
         && negb (get_truthy topology_payload "content")
      then
        match known_url topology_id with
        | Some u => <["url" := VStr u]> topology_payload
        | None => topology_payload
        end
      else topology_payload
  | _ => topology_payload
  end.

(** [dict(body.options.get("metadata", {})) if
    isinstance(body.options.get("metadata"), dict) else {}] *)
Definition classify_metadata (options : dict) : dict :=
  match dict_get options "metadata" with
  | VDict _ =>
      match dict_get_default options "metadata" (VDict ∅) with
      | VDict d => py_dict d
      | _ => ∅
      end
  | _ => ∅
  end.

(** The [try] block of [classify_graph_endpoint] with its handler. *)
Definition classify_build (body : ClassifyRequest.t)
    : result (Graph.t * ClassifierTopologyInput.t * ClassifierOptions.t) :=
  try_except
    (let graph_input := GraphResponse.to_graph (ClassifyRequest.graph body) in
     let topology_payload := classify_topology_payload (ClassifyRequest.topology body) in
     let topology :=
       ClassifierTopologyInput.mk
         (dict_get topology_payload "id")
         (dict_get topology_payload "url")
         (dict_get topology_payload "content")
         (dict_get topology_payload "format") in
     let options := ClassifyRequest.options body in
     min_confidence ←
       py_float (dict_get_default options "min_confidence" (VFloat float_0_5));
     let use_llm := truthy (dict_get_default options "use_llm" (VBool false)) in
     let metadata := classify_metadata options in
     mret (graph_input, topology,
           ClassifierOptions.mk min_confidence use_llm metadata))
    [ValueError; TypeError]
    (fun exc =>
       Raise (HTTPException HTTP_400_BAD_REQUEST
                ("Invalid classify request: " +:+ exn_str exc))).

Definition classify_graph_endpoint (body : ClassifyRequest.t) : M ClassifyResponse.t :=
  '(graph_input, topology, options) ← lift (classify_build body);
  emit (CallClassify graph_input topology options);;
  let result := classify_graph_sync env graph_input topology options in
  if negb (ClassifyResult.success result) then
    raise (HTTPException HTTP_422_UNPROCESSABLE_ENTITY
             (match ClassifyResult.errors result with
              | first :: _ => first
              | [] => "Classification failed"
              end))
  else
    mret (ClassifyResponse.mk (GraphResponse.from_graph (ClassifyResult.graph result))).

(** [LLMOptions(...)] of [enhance_graph_endpoint], lines 341-351. *)
Definition enhance_llm_options (opts_dict : dict) : result LLMOptions.t :=
  let backend := dict_get_default opts_dict "backend" (VStr "transformers") in
  let model :=
    dict_get_default opts_dict "model" (VStr "HuggingFaceTB/SmolLM2-1.7B-Instruct") in
  let base_url :=
    dict_get_default opts_dict "base_url" (VStr "http://localhost:11434/v1") in
  min_confidence_threshold ←
    py_float (dict_get_default opts_dict "min_confidence_threshold" (VFloat float_0_7));
  batch_size ← py_int (dict_get_default opts_dict "batch_size" (VInt 10));
  let force := truthy (dict_get_default opts_dict "force" (VBool false)) in
  mret (LLMOptions.mk backend model base_url min_confidence_threshold batch_size force).

(** ["class" in n.attrs] *)
Definition has_class (n : Node.t) : bool :=
  match Node.attrs n !! "class" with
  | Some _ => true
  | None => false
  end.

(** [n.attrs.get("class_confidence", 0.0) < threshold] *)
Definition below_threshold (threshold : spec_float) (n : Node.t) : result bool :=
  py_lt_float (dict_get_default (Node.attrs n) "class_confidence" (VFloat float_0_0))
    threshold.

(** The [try] block of [enhance_graph_endpoint] with its handler. *)
Definition enhance_build (body : EnhanceRequest.t) : M (Graph.t * LLMOptions.t) :=
  try_exceptM
    (let graph_input := GraphResponse.to_graph (EnhanceRequest.graph body) in
     let opts_dict := py_dict (EnhanceRequest.options body) in
     llm_options ← lift (enhance_llm_options opts_dict);
     let nodes_with_class := filter (fun n => has_class n = true) (Graph.nodes graph_input) in
     low_confidence ←
       lift (filter_r
               (below_threshold (LLMOptions.min_confidence_threshold llm_options))
               nodes_with_class);
     logger_info "Enhance request: %d nodes, %d classified, %d below threshold %.2f"
       [VInt (Z.of_nat (length (Graph.nodes graph_input)));
        VInt (Z.of_nat (length nodes_with_class));
        VInt (Z.of_nat (length low_confidence));
        VFloat (LLMOptions.min_confidence_threshold llm_options)];;
     mret (graph_input, llm_options))
    [ValueError; TypeError]
    (fun exc =>
       raise (HTTPException HTTP_400_BAD_REQUEST
                ("Invalid enhance request: " +:+ exn_str exc))).

Definition to_EnhancementResponse (e : Enhancement.t) : EnhancementResponse.t :=
  EnhancementResponse.mk
    (Enhancement.node_id e)
    (Enhancement.original_class e)
    (Enhancement.original_confidence e)
    (Enhancement.suggested_class e)
    (Enhancement.llm_confidence e)
    (Enhancement.reasoning e)
    (Enhancement.applied e).

Definition enhance_graph_endpoint (body : EnhanceRequest.t) : M EnhanceResponse.t :=
  '(graph_input, llm_options) ← enhance_build body;
  emit (CallEnhance graph_input llm_options);;
  let result := enhance_graph_sync env graph_input llm_options in
  let applied_count :=
    length (filter (fun e => Enhancement.applied e = true)
              (EnhanceResult.enhancements result)) in
  logger_info "Enhance result: success=%s, enhancements=%d, applied=%d, errors=%s"
    [VBool (EnhanceResult.success result);
     VInt (Z.of_nat (length (EnhanceResult.enhancements result)));
     VInt (Z.of_nat applied_count);
     match EnhanceResult.errors result with
     | [] => VStr "none"
     | errs => VList (map VStr errs)
     end];;
  let enhancements := map to_EnhancementResponse (EnhanceResult.enhancements result) in
  mret (EnhanceResponse.mk
          (GraphResponse.from_graph (EnhanceResult.graph result))
          enhancements
          (EnhanceResult.success result)
          (EnhanceResult.errors result)
          (default 0 (EnhanceResult.metadata result !! "nodes_evaluated"))
          (default 0 (EnhanceResult.metadata result !! "nodes_enhanced"))).

(** [with urllib.request.urlopen(url, timeout=t) as response:
       payload_raw = response.read()] *)
Definition fetch (url : string) (timeout : Z) : M (list Byte.byte) :=
  emit (CallUrlopen url timeout);;
  lift (urlopen_read env url timeout).

Definition get_ontology (ontology_id : string) : M value :=
  match ontologies !! ontology_id with
  | None =>
      raise (HTTPException HTTP_404_NOT_FOUND
               ("Ontology '" +:+ ontology_id +:+ "' not found"))
  | Some ontology =>
      match OntologyInfo.url ontology with
      | Some (String c rest as url) =>
          try_exceptM
            (payload_raw ← fetch url 20;
             try_exceptM (lift (json_loads payload_raw)) [JSONDecodeError]
               (fun _ =>
                  let payload_text := decode_utf8_replace payload_raw in
                  lift (yaml_safe_load payload_text)))
            [OSError; JSONDecodeError; YAMLError]
            (fun exc =>
               raise (HTTPException HTTP_502_BAD_GATEWAY
                        ("Failed to fetch ontology '" +:+ ontology_id +:+ "': "
                           +:+ exn_str exc)))
      | _ =>
          raise (HTTPException HTTP_404_NOT_FOUND
                   ("Ontology '" +:+ ontology_id +:+ "' does not define a URL"))
      end
  end.

End Endpoints.

(** ** Sessions

    A world reached from the initial one by requests of which no census
    succeeded: failed censuses and requests to the other endpoints, each
    with the services it met. *)

Section Sessions.
Context `{PyRuntime}.

Inductive no_census_yet : world -> Prop :=
| nc_initial : no_census_yet initial_world
| nc_failed_census env timeout client_ip bbmd_ip w e w' :
    no_census_yet w ->
    discover_census env timeout client_ip bbmd_ip w = (Raise e, w') ->
    no_census_yet w'
| nc_objects env device_id client_ip bbmd_ip rpm w r w' :
    no_census_yet w ->
    discover_device_objects env device_id client_ip bbmd_ip rpm w = (r, w') ->
    no_census_yet w'
| nc_classify env ontologies body w r w' :
    no_census_yet w ->
    classify_graph_endpoint env ontologies body w = (r, w') ->
    no_census_yet w'
| nc_enhance env body w r w' :
    no_census_yet w ->
    enhance_graph_endpoint env body w = (r, w') ->
    no_census_yet w'
| nc_ontology env ontologies ontology_id w r w' :
    no_census_yet w ->
    get_ontology env ontologies ontology_id w = (r, w') ->
    no_census_yet w'.

(** The identifier-to-handle mapping the entries of a census stand for:
    entries are entered in order, a later one replacing an earlier one
    with the same identifier. *)
Definition enter (m : gmap Z string) (e : DeviceCensusEntry.t) : gmap Z string :=
  match DeviceCensusEntry.device_uid e with
  | Some u => <[DeviceCensusEntry.device_id e := u]> m
  | None => m
  end.

Definition census_uid_map (census : list DeviceCensusEntry.t) : gmap Z string :=
  fold_left enter census ∅.

(** The devices the derivation rejects. *)
Definition bad_identifier (d : Device.t) : Prop :=
  match Device.protocol_ref d with
  | None => True
  | Some pr =>
      match ProtocolRef.device_id pr with
      | None => True
      | Some (IdInt _) => False
      | Some (IdStr s) => int_of_str s = None
      end
  end.

(** A request that leaves the cache as it found it. *)
Definition keeps_cache {A} (m : M A) : Prop :=
  forall w r w', m w = (r, w') ->
    _last_device_uids_by_id w' = _last_device_uids_by_id w.

End Sessions.

(** The handler of the outer [try] of [get_ontology]. *)
Definition bad_gateway (ontology_id : string) (e : exn) : result value :=
  if caught_by [OSError; JSONDecodeError; YAMLError] e then
    Raise (HTTPException HTTP_502_BAD_GATEWAY
             ("Failed to fetch ontology '" +:+ ontology_id +:+ "': " +:+ exn_str e))
  else Raise e.

(** ** A runtime and services to run the endpoints on examples

    The runtime reads ASCII decimal integers; it agrees with CPython on
    the texts and bodies the examples below give it, and is not meant
    beyond them. *)

Fixpoint digits_value (s : string) (acc : Z) : option Z :=
  match s with
  | EmptyString => Some acc
  | String c rest =>
      let n := Z.of_N (Ascii.N_of_ascii c) in
      if (48 <=? n) && (n <=? 57) then digits_value rest (10 * acc + (n - 48))
      else None
  end.

Definition demo_int_of_str (s : string) : option Z :=
  match s with
  | EmptyString => None
  | String ("-"%char) (String _ _ as rest) => Z.opp <$> digits_value rest 0
  | String ("-"%char) EmptyString => None
  | _ => digits_value s 0
  end.

Definition demo_float_of_str (s : string) : option spec_float :=
  (fun z => binary_normalize prec emax z 0 false) <$> demo_int_of_str s.

Definition demo_repr_str (s : string) : string := "'" +:+ s +:+ "'".

Definition demo_json_loads (raw : list Byte.byte) : result value :=
  match raw with
  | [Byte.xff] =>
      Raise (Exn UnicodeDecodeError
               "'utf-8' codec can't decode byte 0xff in position 0: invalid start byte")
  | _ =>
      match demo_int_of_str (string_of_list_byte raw) with
      | Some z => Ok (VInt z)
      | None => Raise (Exn JSONDecodeError "Expecting value: line 1 column 1 (char 0)")
      end
  end.

Definition demo_yaml_safe_load (text : string) : result value :=
  match text with
  | EmptyString => Ok VNone
  | String ("["%char) _ => Raise (Exn YAMLError "while parsing a flow sequence")
  | _ => Ok (VStr text)
  end.

Definition demo_runtime : PyRuntime := {|
  int_of_str := demo_int_of_str;
  float_of_str := demo_float_of_str;
  repr_str := demo_repr_str;
  decode_utf8_replace := string_of_list_byte;
  json_loads := demo_json_loads;
  yaml_safe_load := demo_yaml_safe_load
|}.

Definition empty_graph : Graph.t := Graph.mk [] [] default_GraphMeta.

(** Services answering as told: a scan result, a remote body, and
    otherwise successful, empty answers. *)
Definition demo_services (scan : ScanResult.t) (body : result (list Byte.byte))
    (enhanced : EnhanceResult.t) : Services := {|
  scan_network := fun _ _ _ _ => scan;
  discover_objects := fun _ _ _ _ => ObjectsResult.mk true VNone [];
  objects_result_to_graph := fun _ => empty_graph;
  classify_graph_sync := fun g _ _ => ClassifyResult.mk true g [];
  enhance_graph_sync := fun _ _ => enhanced;
  urlopen_read := fun _ _ => body
|}.

Definition demo_device (uid : string) (device_id : option device_id_t) : Device.t :=
  Device.mk uid None None [] (Some (ProtocolRef.mk "192.168.1.10" device_id)).

Definition demo_scan (devices : list Device.t) : ScanResult.t :=
  ScanResult.mk true devices [].

Definition demo_enhanced : EnhanceResult.t :=
  EnhanceResult.mk false empty_graph [] ∅ ["model unavailable"].

Definition demo_env (devices : list Device.t) : Services :=
  demo_services (demo_scan devices) (Ok []) demo_enhanced.

Definition demo_entry (uid : string) (device_id : Z) : DeviceCensusEntry.t :=
  DeviceCensusEntry.mk "192.168.1.10" device_id None None 0 (Some uid).

Definition demo_world_X : world :=
  World {[ 5 := "X" ]}
    [Log "Starting network discovery (timeout=%ss)" [VInt 60];
     CallScanNetwork 60 None None;
     Log "Network discovery complete: %s devices found" [VInt 1]].

Definition demo_world_Y : world :=
  snd (discover_census (H := demo_runtime)
         (demo_env [demo_device "Y" (Some (IdStr "7"))]) 60 None None demo_world_X).

Definition demo_world_failed : world :=
  snd (discover_census (H := demo_runtime)
         (demo_env [demo_device "Z" (Some (IdStr "abc"))]) 60 None None initial_world).

Definition demo_classify_body (topology options : dict) : ClassifyRequest.t :=
  ClassifyRequest.mk (GraphResponse.new None None None) topology options.

Definition demo_brick : OntologyInfo.t :=
  OntologyInfo.mk "brick_v1.4.4" "Brick" (Some "1.4.4")
    (Some "https://brickschema.org/schema/1.4.4/Brick.jsonld").

Definition demo_graph : Graph.t :=
  Graph.mk
    [Node.mk "ahu-1" "point" ["hvac"]
       {[ "class" := VStr "AHU"; "class_confidence" := VFloat float_0_5 ]};
     Node.mk "vav-1" "point" [] {[ "class" := VStr "VAV"; "class_confidence" := VInt 1 ]};
     Node.mk "dev-1" "device" [] ∅]
    [Edge.mk "dev-1" "ahu-1" "hasPoint" ∅]
    default_GraphMeta.

Definition demo_enhance_body : EnhanceRequest.t :=
  EnhanceRequest.mk (GraphResponse.from_graph demo_graph) {[ "force" := VBool true ]}.

Definition demo_llm_options : LLMOptions.t :=
  LLMOptions.mk (VStr "transformers") (VStr "HuggingFaceTB/SmolLM2-1.7B-Instruct")
    (VStr "http://localhost:11434/v1") float_0_7 10 true.

Definition demo_world_enhance : world :=
  snd (enhance_build (H := demo_runtime) demo_enhance_body initial_world).

(** ** The remaining endpoints *)

Module LLMStatusResponse.
Record t := mk {
  available : bool;
  backend : option string;
  model : option string
}.
End LLMStatusResponse.

(** What an [import] statement does: the module is there, it is not
    ([ImportError], with [ModuleNotFoundError] below it), or loading it
    raised something else. *)
Inductive import_outcome :=
| Imported
| ImportError (msg : string)
| ImportRaised (e : exn).

(** [get_llm_status]: [import torch], then
    [from transformers import AutoModelForCausalLM], under
    [except ImportError]. *)
Definition get_llm_status (import_torch import_transformers : import_outcome)
    : result LLMStatusResponse.t :=
  match import_torch with
  | ImportError _ => Ok (LLMStatusResponse.mk false None None)
  | ImportRaised e => Raise e
  | Imported =>
      match import_transformers with
      | ImportError _ => Ok (LLMStatusResponse.mk false None None)
      | ImportRaised e => Raise e
      | Imported =>
          Ok (LLMStatusResponse.mk true (Some "transformers")
                (Some "HuggingFaceTB/SmolLM2-1.7B-Instruct"))
      end
  end.

(** [list(_ONTOLOGIES.values())].  A dictionary lists its values in
    insertion order, which a finite map does not keep: the list is the
    one of the source up to the order of its elements. *)
Definition list_ontologies (ontologies : gmap string OntologyInfo.t)
    : list OntologyInfo.t :=
  (map_to_list ontologies).*2.

(** A registry that files every entry under its own id, as the one of
    the module does. *)
Definition keyed_by_id (ontologies : gmap string OntologyInfo.t) : Prop :=
  forall k o, ontologies !! k = Some o -> OntologyInfo.id o = k.

(** The values that do not compare with a float. *)
Definition not_a_number (v : value) : Prop :=
  match v with
  | VNone | VStr _ | VList _ | VDict _ => True
  | _ => False
  end.

(** The classes the outer handler of [get_ontology] names. *)
Definition gateway_classes : list exn_class := [OSError; JSONDecodeError; YAMLError].

Definition is_log (e : event) : Prop :=
  match e with
  | Log _ _ => True
  | _ => False
  end.

Definition demo_failed_env : Services :=
  demo_services
    (ScanResult.mk false [demo_device "A" (Some (IdInt 5))] ["timeout"; "no route"])
    (Ok []) demo_enhanced.

Definition demo_three_devices : list Device.t :=
  [demo_device "A" (Some (IdInt 5));
   demo_device "B" (Some (IdStr "5"));
   demo_device "C" (Some (IdInt 9))].

Definition demo_world_three : world :=
  snd (discover_census (H := demo_runtime) (demo_env demo_three_devices)
         60 None None demo_world_X).

Definition demo_topology : ClassifierTopologyInput.t :=
  ClassifierTopologyInput.mk (VStr "brick_v1.4.4")
    (VStr "https://brickschema.org/schema/1.4.4/Brick.jsonld") VNone VNone.

Definition demo_classifier_options : ClassifierOptions.t :=
  ClassifierOptions.mk float_0_5 false ∅.

(** A graph whose classified node has a text for confidence. *)
Definition demo_graph_text_confidence : Graph.t :=
  Graph.mk
    [Node.mk "dev-1" "device" [] {[ "class_confidence" := VStr "n/a" ]};
     Node.mk "ahu-1" "point" []
       {[ "class" := VStr "AHU"; "class_confidence" := VStr "high" ]}]
    [] default_GraphMeta.

Definition demo_enhance_body_text : EnhanceRequest.t :=
  EnhanceRequest.mk (GraphResponse.from_graph demo_graph_text_confidence) ∅.

Definition demo_llm_defaults : LLMOptions.t :=
  LLMOptions.mk (VStr "transformers") (VStr "HuggingFaceTB/SmolLM2-1.7B-Instruct")
    (VStr "http://localhost:11434/v1") float_0_7 10 false.

Definition demo_enhance_body_batch : EnhanceRequest.t :=
  EnhanceRequest.mk (GraphResponse.from_graph demo_graph) {[ "batch_size" := VStr "many" ]}.

Definition demo_reset_env : Services :=
  demo_services (demo_scan [])
    (Raise (Exn IncompleteRead "IncompleteRead(0 bytes read, 17 more expected)"))
    demo_enhanced.

(** A registry with an entry that has no url. *)
Definition demo_registry : gmap string OntologyInfo.t :=
  <[ "haystack" := OntologyInfo.mk "haystack" "Haystack" None None ]> _ONTOLOGIES.

(** ** The order of numbers, stated on exact values

    What [<] means between the numbers of Python, written without the
    comparison of the interpreter: a number is not-a-number, an infinity,
    or the exact value [m * 2 ^ e]; two exact values compare after being
    brought to the smaller exponent.  The comparison the endpoints run is
    proved to agree with it. *)

Inductive xnumber :=
| XNaN
| XInf (negative : bool)
| XDyadic (m e : Z).

Definition xnumber_of_float (f : spec_float) : xnumber :=
  match f with
  | S754_zero _ => XDyadic 0 0
  | S754_infinity s => XInf s
  | S754_nan => XNaN
  | S754_finite s m e => XDyadic (if s then Z.neg m else Z.pos m) e
  end.

(** The number a value is, [None] for a value that is no number. *)
Definition xnumber_of_value (v : value) : option xnumber :=
  match v with
  | VInt z => Some (XDyadic z 0)
  | VBool b => Some (XDyadic (if b then 1 else 0) 0)
  | VFloat f => Some (xnumber_of_float f)
  | _ => None
  end.

(** [a * 2 ^ ea < b * 2 ^ eb] *)
Definition dyadic_ltb (a ea b eb : Z) : bool :=
  a * 2 ^ (ea - Z.min ea eb) <? b * 2 ^ (eb - Z.min ea eb).

Definition xnumber_ltb (x y : xnumber) : bool :=
  match x, y with
  | XNaN, _ => false
  | _, XNaN => false
  | XInf sx, XInf sy => sx && negb sy
  | XInf sx, XDyadic _ _ => sx
  | XDyadic _ _, XInf sy => negb sy
  | XDyadic a ea, XDyadic b eb => dyadic_ltb a ea b eb
  end.

(** A node the enhance log counts as classified, and as of low
    confidence under a threshold: the node has a class, and its
    confidence, 0 when it has none, is a number below the threshold. *)
Definition classified (n : Node.t) : Prop :=
  is_Some (Node.attrs n !! "class").

Definition confidence_below (threshold : xnumber) (n : Node.t) : Prop :=
  match Node.attrs n !! "class_confidence" with
  | None => xnumber_ltb (XDyadic 0 0) threshold = true
  | Some v =>
      match xnumber_of_value v with
      | Some x => xnumber_ltb x threshold = true
      | None => False
      end
  end.

Global Instance classified_dec n : Decision (classified n).
Proof. unfold classified. apply _. Defined.

Global Instance confidence_below_dec threshold n :
  Decision (confidence_below threshold n).
Proof.
  unfold confidence_below.
  destruct (Node.attrs n !! "class_confidence") as [v|]; [|apply _].
  destruct (xnumber_of_value v); apply _.
Defined.

(** A node whose confidence, when it is a float, is a binary64 number in
    its one canonical form, as every float of the interpreter is. *)
Definition canonical_confidence (n : Node.t) : Prop :=
  forall f, Node.attrs n !! "class_confidence" = Some (VFloat f) ->
            valid_binary prec emax f = true.

(** Error texts with "; " between them: the first text, then each
    further one behind a "; ". *)
Definition joined_errors (errors : list string) : string :=
  match errors with
  | [] => EmptyString
  | e :: rest => e +:+ fold_right (fun e' acc => "; " +:+ e' +:+ acc) EmptyString rest
  end.

Definition demo_record_applied : Enhancement.t :=
  Enhancement.mk "ahu-1" (Some "AHU") float_0_5 "VAV" float_0_7 "because" true.

Definition demo_record_kept : Enhancement.t :=
  Enhancement.mk "vav-1" None float_0_0 "VAV" float_0_5 "unsure" false.

Definition demo_enhanced_records : EnhanceResult.t :=
  EnhanceResult.mk false demo_graph [demo_record_applied; demo_record_kept]
    {[ "nodes_evaluated" := 3 ]} ["model unavailable"].

Definition demo_enhance_env : Services :=
  demo_services (demo_scan []) (Ok []) demo_enhanced_records.

Definition demo_enhance_body_two : EnhanceRequest.t :=
  EnhanceRequest.mk (GraphResponse.from_graph demo_graph)
    {[ "min_confidence_threshold" := VInt 2 ]}.

Definition demo_llm_options_two : LLMOptions.t :=
  LLMOptions.mk (VStr "transformers") (VStr "HuggingFaceTB/SmolLM2-1.7B-Instruct")
    (VStr "http://localhost:11434/v1") (S754_finite false 4503599627370496 (-51)) 10
    false.

Definition demo_world_enhance_two : world :=
  snd (enhance_build (H := demo_runtime) demo_enhance_body_two initial_world).

(** * Properties *)

(** ** The codec *)

Lemma to_node_from_node (n : Node.t) :
  NodeResponse.to_node (NodeResponse.from_node n) = n.
Proof. by destruct n. Qed.

Lemma to_edge_from_edge (e : Edge.t) :
  EdgeResponse.to_edge (EdgeResponse.from_edge e) = e.
Proof. by destruct e. Qed.

Lemma to_meta_from_meta (m : GraphMeta.t) :
  GraphMetaResponse.to_meta (GraphMetaResponse.from_meta m) = m.
Proof. by destruct m. Qed.

Lemma map_round_trip {A B} (f : A -> B) (g : B -> A) (xs : list A) :
  (forall x, g (f x) = x) -> map g (map f xs) = xs.
Proof.
  intros Hgf. induction xs as [|x xs IH]; simpl; [done|].
  by rewrite Hgf, IH.
Qed.

(** C1. Decoding the encoded form of a graph gives the graph back, field
    for field, whatever its collections hold (the empty ones and the
    default metadata included); and a wire object that leaves its
    optional fields out decodes to the empty sequence or mapping, the
    empty text and [true] for [success]. *)
Theorem graph_round_trip :
  (forall g : Graph.t, GraphResponse.to_graph (GraphResponse.from_graph g) = g)
  /\ GraphResponse.to_graph (GraphResponse.from_graph empty_graph) = empty_graph
  /\ (forall i t, NodeResponse.to_node (NodeResponse.new i t None None)
                  = Node.mk i t [] ∅)
  /\ (forall s t ty, EdgeResponse.to_edge (EdgeResponse.new s t ty None)
                     = Edge.mk s t ty ∅)
  /\ GraphMetaResponse.to_meta
       (GraphMetaResponse.new None None None None None None None None)
     = GraphMeta.mk EmptyString EmptyString ∅ ∅ true [] [] ∅
  /\ GraphResponse.to_graph (GraphResponse.new None None None)
     = Graph.mk [] [] (GraphMeta.mk EmptyString EmptyString ∅ ∅ true [] [] ∅).
Proof.
  assert (Hrt : forall g, GraphResponse.to_graph (GraphResponse.from_graph g) = g).
  { intros [ns es m]. unfold GraphResponse.from_graph, GraphResponse.to_graph.
    simpl. f_equal.
    - apply map_round_trip, to_node_from_node.
    - apply map_round_trip, to_edge_from_edge.
    - apply to_meta_from_meta. }
  repeat split; auto.
Qed.

(** ** The census *)

Section Census.
Context `{PyRuntime}.

Lemma device_to_census_uid d e :
  _device_to_census d = Ok e ->
  DeviceCensusEntry.device_uid e = Some (Device.uid d).
Proof.
  unfold _device_to_census. intros He.
  destruct (Device.protocol_ref d) as [pr|]; [|done].
  destruct (ProtocolRef.device_id pr) as [raw|]; [|done].
  destruct raw as [z|s]; simpl in He.
  - by inversion He.
  - destruct (int_of_str s); simpl in He; [by inversion He | done].
Qed.

Lemma enter_device d e (m : gmap Z string) :
  _device_to_census d = Ok e ->
  enter m e = <[DeviceCensusEntry.device_id e := Device.uid d]> m.
Proof. intros Hd. unfold enter. by rewrite (device_to_census_uid d e Hd). Qed.

(** Deriving an entry fails with a [ValueError] and nothing else. *)
Lemma device_to_census_raises d e :
  _device_to_census d = Raise e -> exists msg, e = Exn ValueError msg.
Proof.
  unfold _device_to_census. intros He.
  destruct (Device.protocol_ref d) as [pr|]; [|inversion He; eauto].
  destruct (ProtocolRef.device_id pr) as [raw|]; [|inversion He; eauto].
  destruct raw as [z|s]; simpl in He; [done|].
  destruct (int_of_str s); simpl in He; [done|]. inversion He; eauto.
Qed.

Lemma bad_identifier_raises d :
  bad_identifier d -> exists msg, _device_to_census d = Raise (Exn ValueError msg).
Proof.
  unfold bad_identifier, _device_to_census.
  destruct (Device.protocol_ref d) as [pr|]; [|eauto].
  destruct (ProtocolRef.device_id pr) as [[z|s]|]; [done| |eauto].
  intros Hs. simpl. rewrite Hs. simpl. eauto.
Qed.

Lemma census_loop_ok ds : forall census uid_map census' uid_map',
  census_loop ds census uid_map = Ok (census', uid_map') ->
  exists es,
    Forall2 (fun d e => _device_to_census d = Ok e) ds es
    /\ census' = census ++ es
    /\ uid_map' = fold_left enter es uid_map.
Proof.
  induction ds as [|d ds IH]; intros census uid_map census' uid_map' Hloop;
    simpl in Hloop.
  - inversion Hloop; subst. exists []. by rewrite app_nil_r.
  - destruct (_device_to_census d) as [e|] eqn:Hd; [|done].
    apply IH in Hloop as (es & Hall & -> & ->).
    exists (e :: es). split; [by constructor|].
    split; [by rewrite <- app_assoc|].
    simpl. by rewrite (enter_device d e uid_map Hd).
Qed.

Lemma census_loop_total ds : forall census uid_map es,
  Forall2 (fun d e => _device_to_census d = Ok e) ds es ->
  census_loop ds census uid_map
  = Ok (census ++ es, fold_left enter es uid_map).
Proof.
  induction ds as [|d ds IH]; intros census uid_map es Hall;
    inversion Hall as [|? e ? es' Hd Hrest]; subst; simpl.
  - by rewrite app_nil_r.
  - rewrite Hd, (IH _ _ es' Hrest), <- app_assoc. simpl.
    by rewrite (enter_device d e uid_map Hd).
Qed.

Lemma census_loop_raise ds : forall census uid_map d,
  d ∈ ds -> bad_identifier d ->
  exists msg, census_loop ds census uid_map = Raise (Exn ValueError msg).
Proof.
  induction ds as [|d0 ds IH]; intros census uid_map d Hin Hbad.
  - by apply elem_of_nil in Hin.
  - simpl. destruct (_device_to_census d0) as [e|e] eqn:Hd0.
    + apply elem_of_cons in Hin as [->|Hin].
      * apply bad_identifier_raises in Hbad as [msg Hmsg]. congruence.
      * eapply IH; eauto.
    + apply device_to_census_raises in Hd0 as [msg ->]. eauto.
Qed.

(** What a census request does, case by case. *)
Lemma discover_census_run env timeout client_ip bbmd_ip w :
  let result := scan_network env BACNET timeout client_ip bbmd_ip in
  let started :=
    events w ++ [Log "Starting network discovery (timeout=%ss)" [VInt timeout];
                 CallScanNetwork timeout client_ip bbmd_ip] in
  discover_census env timeout client_ip bbmd_ip w =
    if ScanResult.success result then
      match census_loop (ScanResult.data result) [] ∅ with
      | Ok (census, uid_map) =>
          (Ok census,
           World uid_map
             (started ++ [Log "Network discovery complete: %s devices found"
                            [VInt (Z.of_nat (length census))]]))
      | Raise e => (Raise e, World (_last_device_uids_by_id w) started)
      end
    else
      (Raise (HTTPException HTTP_500_INTERNAL_SERVER_ERROR
                ("Network scan failed: "
                   +:+ str_or (str_join "; " (ScanResult.errors result))
                         "Unknown BACnet scan failure")),
       World (_last_device_uids_by_id w) started).
Proof.
  intros result started. subst result started.
  unfold discover_census, logger_info, emit, cache_replace, raise, lift,
    dict_update, dict_clear, mbind, mret, M_bind, M_ret. simpl.
  rewrite <- app_assoc. simpl.
  destruct (ScanResult.success _); simpl; [|done].
  destruct (census_loop _ _ _) as [[census uid_map]|e]; simpl; [|done].
  by rewrite (right_id_L ∅ (∪)).
Qed.

Lemma fold_enter_last es : forall m e k u,
  DeviceCensusEntry.device_id e = k ->
  DeviceCensusEntry.device_uid e = Some u ->
  Forall (fun e' => DeviceCensusEntry.device_id e' <> k) es ->
  fold_left enter es (enter m e) !! k = Some u.
Proof.
  assert (Hkeep : forall es (m : gmap Z string) k,
            Forall (fun e' => DeviceCensusEntry.device_id e' <> k) es ->
            fold_left enter es m !! k = m !! k).
  { clear. induction es as [|e' es IH]; intros m k Hne; simpl; [done|].
    inversion Hne as [|? ? Hk Hrest]; subst. rewrite IH by done.
    unfold enter. destruct (DeviceCensusEntry.device_uid e'); [|done].
    by rewrite lookup_insert_ne. }
  intros m e k u Hk Hu Hne. rewrite Hkeep by done.
  unfold enter. rewrite Hu, Hk. apply lookup_insert_eq.
Qed.

Lemma census_cache_after env timeout client_ip bbmd_ip w r w' :
  discover_census env timeout client_ip bbmd_ip w = (r, w') ->
  _last_device_uids_by_id w'
  = match r with
    | Ok census => census_uid_map census
    | Raise _ => _last_device_uids_by_id w
    end.
Proof.
  rewrite discover_census_run. cbv zeta.
  destruct (ScanResult.success _).
  - destruct (census_loop _ _ _) as [[census uid_map]|e] eqn:Hloop;
      intros Hrun; inversion Hrun; subst; simpl; [|done].
    apply census_loop_ok in Hloop as (es & _ & -> & ->). done.
  - intros Hrun; inversion Hrun; subst. done.
Qed.

(** C2. A successful census replaces the cache wholesale: whatever the
    cache held, after a census returning one entry for device 5 with
    handle "X" the lookup of 5 gives "X"; after a second census returning
    one entry for device 7 with handle "Y" the lookup of 5 finds nothing
    and the lookup of 7 gives "Y".  After any census request the cache is
    the mapping of the returned entries, or, when the request failed, the
    cache of before: never a mixture. *)
Theorem census_replaces_cache
    env1 timeout1 client_ip1 bbmd_ip1 env2 timeout2 client_ip2 bbmd_ip2
    w0 w1 w2 e1 e2 :
  discover_census env1 timeout1 client_ip1 bbmd_ip1 w0 = (Ok [e1], w1) ->
  DeviceCensusEntry.device_id e1 = 5 ->
  DeviceCensusEntry.device_uid e1 = Some "X" ->
  discover_census env2 timeout2 client_ip2 bbmd_ip2 w1 = (Ok [e2], w2) ->
  DeviceCensusEntry.device_id e2 = 7 ->
  DeviceCensusEntry.device_uid e2 = Some "Y" ->
  cache_get 5 w1 = (Ok (Some "X"), w1)
  /\ cache_get 5 w2 = (Ok None, w2)
  /\ cache_get 7 w2 = (Ok (Some "Y"), w2)
  /\ (forall env timeout client_ip bbmd_ip w r w',
        discover_census env timeout client_ip bbmd_ip w = (r, w') ->
        _last_device_uids_by_id w'
        = match r with
          | Ok census => census_uid_map census
          | Raise _ => _last_device_uids_by_id w
          end).
Proof.
  intros Hrun1 Hid1 Huid1 Hrun2 Hid2 Huid2.
  apply census_cache_after in Hrun1, Hrun2.
  split; [|split; [|split]];
    [| | |intros; by eapply census_cache_after];
    unfold cache_get; rewrite ?Hrun1, ?Hrun2;
    unfold census_uid_map, enter; simpl;
    rewrite ?Huid1, ?Hid1, ?Huid2, ?Hid2.
  - by rewrite lookup_insert_eq.
  - by rewrite lookup_insert_ne.
  - by rewrite lookup_insert_eq.
Qed.

(** C3. When the scan succeeded and one of its devices has no protocol
    reference, no identifier, or an identifier that [int] rejects, the
    census request raises a [ValueError]: it returns no list, not even for
    the valid devices, and the cache is the one of before the request. *)
Theorem census_fails_whole env timeout client_ip bbmd_ip w d :
  ScanResult.success (scan_network env BACNET timeout client_ip bbmd_ip) = true ->
  d ∈ ScanResult.data (scan_network env BACNET timeout client_ip bbmd_ip) ->
  bad_identifier d ->
  exists msg w',
    discover_census env timeout client_ip bbmd_ip w = (Raise (Exn ValueError msg), w')
    /\ _last_device_uids_by_id w' = _last_device_uids_by_id w.
Proof.
  intros Hsuccess Hin Hbad.
  destruct (census_loop_raise _ [] ∅ d Hin Hbad) as [msg Hloop].
  rewrite discover_census_run. cbv zeta. rewrite Hsuccess, Hloop.
  eauto.
Qed.

Lemma good_identifier_ok d :
  ~ bad_identifier d -> exists e, _device_to_census d = Ok e.
Proof.
  unfold bad_identifier, _device_to_census.
  destruct (Device.protocol_ref d) as [pr|]; [|intros []; done].
  destruct (ProtocolRef.device_id pr) as [[z|s]|]; [| |intros []; done].
  - intros _. simpl. eauto.
  - intros Hs. simpl. destruct (int_of_str s); [simpl; eauto | done].
Qed.

(** A successful scan whose devices all have a usable identifier gives a
    census. *)
Lemma discover_census_total env timeout client_ip bbmd_ip w :
  ScanResult.success (scan_network env BACNET timeout client_ip bbmd_ip) = true ->
  Forall (fun d => ~ bad_identifier d)
    (ScanResult.data (scan_network env BACNET timeout client_ip bbmd_ip)) ->
  exists census w',
    discover_census env timeout client_ip bbmd_ip w = (Ok census, w')
    /\ Forall2 (fun d e => _device_to_census d = Ok e)
         (ScanResult.data (scan_network env BACNET timeout client_ip bbmd_ip)) census.
Proof.
  intros Hsuccess Hgood.
  assert (Hes : exists es,
            Forall2 (fun d e => _device_to_census d = Ok e)
              (ScanResult.data (scan_network env BACNET timeout client_ip bbmd_ip)) es).
  { induction Hgood as [|d ds Hd _ [es Hes]]; [by exists []|].
    apply good_identifier_ok in Hd as [e He]. exists (e :: es). by constructor. }
  destruct Hes as [es Hes].
  rewrite discover_census_run. cbv zeta.
  rewrite Hsuccess, (census_loop_total _ [] ∅ es Hes). simpl. eauto.
Qed.

(** C10. A successful scan whose devices all have a usable identifier
    gives one census entry per device, in scan order, also when several
    devices share an identifier; the cache then maps an identifier to the
    handle of the last device of the scan that has it. *)
Theorem census_duplicates env timeout client_ip bbmd_ip w :
  ScanResult.success (scan_network env BACNET timeout client_ip bbmd_ip) = true ->
  Forall (fun d => ~ bad_identifier d)
    (ScanResult.data (scan_network env BACNET timeout client_ip bbmd_ip)) ->
  exists census w',
    discover_census env timeout client_ip bbmd_ip w = (Ok census, w')
    /\ Forall2 (fun d e => _device_to_census d = Ok e)
         (ScanResult.data (scan_network env BACNET timeout client_ip bbmd_ip)) census
    /\ forall before d after e,
         ScanResult.data (scan_network env BACNET timeout client_ip bbmd_ip)
         = before ++ d :: after ->
         _device_to_census d = Ok e ->
         Forall (fun d' => forall e', _device_to_census d' = Ok e' ->
                   DeviceCensusEntry.device_id e' <> DeviceCensusEntry.device_id e)
           after ->
         _last_device_uids_by_id w' !! DeviceCensusEntry.device_id e
         = Some (Device.uid d).
Proof.
  intros Hsuccess Hgood.
  destruct (discover_census_total env timeout client_ip bbmd_ip w Hsuccess Hgood)
    as (census & w' & Hrun & Hall).
  exists census, w'. split; [done|]. split; [done|].
  intros before d after e Hdata Hd Hafter.
  rewrite (census_cache_after _ _ _ _ _ _ _ Hrun). unfold census_uid_map.
  rewrite Hdata in Hall.
  apply Forall2_app_inv_l in Hall as (es1 & es2' & Hall1 & Hall2 & ->).
  inversion Hall2 as [|? e' ? es2 Hd' Hall3]; subst.
  assert (e' = e) as -> by congruence.
  rewrite fold_left_app. simpl.
  apply fold_enter_last; [done|by eapply device_to_census_uid|].
  clear -Hall3 Hafter.
  induction Hall3 as [|d' e' after es2 Hd' _ IH]; [constructor|].
  inversion Hafter; subst. constructor; auto.
Qed.

End Census.

Lemma census_replaces_cache_witness :
  cache_get 5 demo_world_X = (Ok (Some "X"), demo_world_X)
  /\ cache_get 5 demo_world_Y = (Ok None, demo_world_Y)
  /\ cache_get 7 demo_world_Y = (Ok (Some "Y"), demo_world_Y).
Proof.
  refine (let H := census_replaces_cache (H := demo_runtime)
            (demo_env [demo_device "X" (Some (IdInt 5))]) 60 None None
            (demo_env [demo_device "Y" (Some (IdStr "7"))]) 60 None None
            initial_world demo_world_X demo_world_Y
            (demo_entry "X" 5) (demo_entry "Y" 7)
            _ _ _ _ _ _ in
          conj (proj1 H) (conj (proj1 (proj2 H)) (proj1 (proj2 (proj2 H)))));
    vm_compute; reflexivity.
Defined.

Lemma census_fails_whole_witness :
  exists msg w',
    discover_census (H := demo_runtime)
      (demo_env [demo_device "A" (Some (IdInt 9)); demo_device "Z" (Some (IdStr "abc"))])
      60 None None demo_world_X
    = (Raise (Exn ValueError msg), w')
    /\ _last_device_uids_by_id w' = _last_device_uids_by_id demo_world_X.
Proof.
  apply (census_fails_whole (H := demo_runtime) _ 60 None None demo_world_X
           (demo_device "Z" (Some (IdStr "abc")))).
  - reflexivity.
  - simpl. apply elem_of_cons. right. apply elem_of_cons. by left.
  - reflexivity.
Defined.

Lemma census_duplicates_witness :
  exists census w',
    discover_census (H := demo_runtime)
      (demo_env [demo_device "A" (Some (IdInt 5)); demo_device "B" (Some (IdStr "5"))])
      60 None None initial_world = (Ok census, w')
    /\ length census = 2%nat
    /\ _last_device_uids_by_id w' !! 5 = Some "B".
Proof.
  destruct (census_duplicates (H := demo_runtime)
              (demo_env [demo_device "A" (Some (IdInt 5));
                         demo_device "B" (Some (IdStr "5"))])
              60 None None initial_world)
    as (census & w' & Hrun & Hall & Hlast).
  - reflexivity.
  - repeat constructor; vm_compute; [tauto | discriminate].
  - exists census, w'. split; [exact Hrun|]. split.
    + apply Forall2_length in Hall. simpl in Hall. by rewrite <- Hall.
    + apply (Hlast [demo_device "A" (Some (IdInt 5))]
               (demo_device "B" (Some (IdStr "5"))) [] (demo_entry "B" 5));
        [reflexivity | reflexivity | constructor].
Defined.

(** ** Requests that leave the cache alone *)

Section CacheKept.
Context `{PyRuntime}.

Lemma keeps_cache_ret {A} (a : A) : keeps_cache (mret a).
Proof. intros w r w' Hrun. by inversion Hrun. Qed.

Lemma keeps_cache_raise {A} (e : exn) : keeps_cache (raise e : M A).
Proof. intros w r w' Hrun. by inversion Hrun. Qed.

Lemma keeps_cache_lift {A} (r : result A) : keeps_cache (lift r).
Proof. intros w r' w' Hrun. by inversion Hrun. Qed.

Lemma keeps_cache_emit (e : event) : keeps_cache (emit e).
Proof. intros w r w' Hrun. by inversion Hrun. Qed.

Lemma keeps_cache_get (k : Z) : keeps_cache (cache_get k).
Proof. intros w r w' Hrun. by inversion Hrun. Qed.

Lemma keeps_cache_bind {A B} (m : M A) (k : A -> M B) :
  keeps_cache m -> (forall a, keeps_cache (k a)) -> keeps_cache (m ≫= k).
Proof.
  intros Hm Hk w r w' Hrun. unfold mbind, M_bind in Hrun.
  destruct (m w) as [[a|e] w1] eqn:Hmw.
  - rewrite (Hk a _ _ _ Hrun). eapply Hm, Hmw.
  - inversion Hrun; subst. eapply Hm, Hmw.
Qed.

Lemma keeps_cache_try {A} (m : M A) handlers (handler : exn -> M A) :
  keeps_cache m -> (forall e, keeps_cache (handler e)) ->
  keeps_cache (try_exceptM m handlers handler).
Proof.
  intros Hm Hh w r w' Hrun. unfold try_exceptM in Hrun.
  destruct (m w) as [[a|e] w1] eqn:Hmw.
  - inversion Hrun; subst. eapply Hm, Hmw.
  - destruct (caught_by handlers e).
    + rewrite (Hh e _ _ _ Hrun). eapply Hm, Hmw.
    + inversion Hrun; subst. eapply Hm, Hmw.
Qed.

Ltac keeps_cache_step :=
  first
    [ apply keeps_cache_ret
    | apply keeps_cache_raise
    | apply keeps_cache_lift
    | apply keeps_cache_emit
    | apply keeps_cache_get
    | apply keeps_cache_try; [|intros ?]
    | apply keeps_cache_bind; [|intros ?]
    | match goal with
      | |- keeps_cache (match ?x with _ => _ end) => destruct x
      | |- keeps_cache (let _ := _ in _) => cbv zeta
      end ].

Lemma discover_device_objects_keeps_cache env device_id client_ip bbmd_ip rpm :
  keeps_cache (discover_device_objects env device_id client_ip bbmd_ip rpm).
Proof. unfold discover_device_objects, logger_info. repeat keeps_cache_step. Qed.

Lemma classify_graph_endpoint_keeps_cache env ontologies body :
  keeps_cache (classify_graph_endpoint env ontologies body).
Proof. unfold classify_graph_endpoint. repeat keeps_cache_step. Qed.

Lemma enhance_graph_endpoint_keeps_cache env body :
  keeps_cache (enhance_graph_endpoint env body).
Proof.
  unfold enhance_graph_endpoint, enhance_build, logger_info.
  repeat keeps_cache_step.
Qed.

Lemma get_ontology_keeps_cache env ontologies ontology_id :
  keeps_cache (get_ontology env ontologies ontology_id).
Proof. unfold get_ontology, fetch. repeat keeps_cache_step. Qed.

Lemma no_census_yet_empty w :
  no_census_yet w -> _last_device_uids_by_id w = ∅.
Proof.
  induction 1 as
    [ | env timeout client_ip bbmd_ip w e w' _ IH Hrun
      | env device_id client_ip bbmd_ip rpm w r w' _ IH Hrun
      | env ontologies body w r w' _ IH Hrun
      | env body w r w' _ IH Hrun
      | env ontologies ontology_id w r w' _ IH Hrun ].
  - done.
  - apply census_cache_after in Hrun. by rewrite Hrun.
  - by rewrite (discover_device_objects_keeps_cache _ _ _ _ _ _ _ _ Hrun).
  - by rewrite (classify_graph_endpoint_keeps_cache _ _ _ _ _ _ Hrun).
  - by rewrite (enhance_graph_endpoint_keeps_cache _ _ _ _ _ Hrun).
  - by rewrite (get_ontology_keeps_cache _ _ _ _ _ _ Hrun).
Qed.

(** C4. As long as no census has succeeded, a request for the objects of
    a device, whatever its identifier, raises the 404 error that tells
    the caller to run a census first, and leaves the world as it was: no
    event was recorded, so the object-discovery service was not called. *)
Theorem objects_before_census env device_id client_ip bbmd_ip rpm w :
  no_census_yet w ->
  discover_device_objects env device_id client_ip bbmd_ip rpm w
  = (Raise (HTTPException HTTP_404_NOT_FOUND
              ("Device " +:+ pretty device_id
                 +:+ " not found in last census. Run GET /discover first.")),
     w).
Proof.
  intros Hnone. apply no_census_yet_empty in Hnone.
  unfold discover_device_objects, cache_get, raise, mbind, M_bind.
  by rewrite Hnone, lookup_empty.
Qed.

End CacheKept.

Lemma objects_before_census_witness :
  discover_device_objects (demo_env []) 5 None None 10 demo_world_failed
  = (Raise (HTTPException 404
              "Device 5 not found in last census. Run GET /discover first."),
     demo_world_failed).
Proof.
  apply (objects_before_census (H := demo_runtime) (demo_env []) 5 None None 10
           demo_world_failed).
  apply (nc_failed_census (H := demo_runtime)
           (demo_env [demo_device "Z" (Some (IdStr "abc"))]) 60 None None
           initial_world
           (Exn ValueError "Device Z has non-integer protocol_ref.device_id='abc'")
           demo_world_failed nc_initial).
  vm_compute; reflexivity.
Defined.

(** ** The classify request *)

Section Classify.
Context `{PyRuntime}.

(** The float literals denote the doubles nearest to 1/2 and 7/10. *)
Lemma float_literals :
  float_0_5 = binary_normalize prec emax 1 (-1) false
  /\ 2 * Z.abs (10 * 6305039478318694 - 7 * 2 ^ 53) < 10
  /\ float_0_7 = S754_finite false 6305039478318694 (-53).
Proof. repeat split; vm_compute; reflexivity. Qed.

Lemma classify_build_eq ontologies body :
  classify_build ontologies body =
    let payload :=
      classify_topology_payload ontologies (ClassifyRequest.topology body) in
    let options := ClassifyRequest.options body in
    match py_float (dict_get_default options "min_confidence" (VFloat float_0_5)) with
    | Ok f =>
        Ok (GraphResponse.to_graph (ClassifyRequest.graph body),
            ClassifierTopologyInput.mk
              (dict_get payload "id") (dict_get payload "url")
              (dict_get payload "content") (dict_get payload "format"),
            ClassifierOptions.mk f
              (truthy (dict_get_default options "use_llm" (VBool false)))
              (classify_metadata options))
    | Raise e =>
        if caught_by [ValueError; TypeError] e then
          Raise (HTTPException HTTP_400_BAD_REQUEST
                   ("Invalid classify request: " +:+ exn_str e))
        else Raise e
    end.
Proof.
  unfold classify_build, try_except. cbv zeta.
  by destruct (py_float _).
Qed.

Lemma classify_graph_endpoint_events env ontologies body w g topo opts :
  classify_build ontologies body = Ok (g, topo, opts) ->
  events (snd (classify_graph_endpoint env ontologies body w))
  = events w ++ [CallClassify g topo opts].
Proof.
  intros Hbuild.
  unfold classify_graph_endpoint, lift, emit, raise, mbind, mret, M_bind, M_ret.
  rewrite Hbuild. simpl.
  by destruct (negb _).
Qed.

Lemma topology_payload_resolved ontologies topology topology_id u :
  topology !! "id" = Some (VStr topology_id) ->
  get_truthy topology "url" = false ->
  get_truthy topology "content" = false ->
  known_url ontologies topology_id = Some u ->
  classify_topology_payload ontologies topology = <["url" := VStr u]> topology.
Proof.
  intros Hid Hurl Hcontent Hknown.
  unfold classify_topology_payload, py_dict, dict_get.
  rewrite Hid. simpl. rewrite Hurl, Hcontent. simpl. by rewrite Hknown.
Qed.

Lemma topology_payload_explicit ontologies topology :
  get_truthy topology "url" = true ->
  classify_topology_payload ontologies topology = topology.
Proof.
  intros Hurl. unfold classify_topology_payload, py_dict.
  rewrite Hurl. simpl. by destruct (dict_get topology "id").
Qed.

(** A url that reads as false (an empty text, [None], zero) counts as no
    url: the registry url replaces it. *)
Lemma topology_payload_empty_url ontologies topology topology_id u :
  topology !! "id" = Some (VStr topology_id) ->
  topology !! "url" = Some (VStr EmptyString) ->
  get_truthy topology "content" = false ->
  known_url ontologies topology_id = Some u ->
  dict_get (classify_topology_payload ontologies topology) "url" = VStr u.
Proof.
  intros Hid Hurl Hcontent Hknown.
  rewrite (topology_payload_resolved _ _ topology_id u); try done.
  - unfold dict_get. by rewrite lookup_insert_eq.
  - unfold get_truthy. by rewrite Hurl.
Qed.

(** C5. In a classify request whose options coerce, a topology that
    gives a registered id and neither a url nor a content reaches the
    classification service with the url of the registry entry; a
    topology that gives a url reaches it with that url, whatever the
    registry holds. *)
Theorem classify_resolves_topology env ontologies body w f :
  py_float (dict_get_default (ClassifyRequest.options body) "min_confidence"
              (VFloat float_0_5)) = Ok f ->
  (forall topology_id known u,
      ClassifyRequest.topology body !! "id" = Some (VStr topology_id) ->
      get_truthy (ClassifyRequest.topology body) "url" = false ->
      get_truthy (ClassifyRequest.topology body) "content" = false ->
      ontologies !! topology_id = Some known ->
      OntologyInfo.url known = Some u ->
      u <> EmptyString ->
      exists g topo opts,
        classify_build ontologies body = Ok (g, topo, opts)
        /\ ClassifierTopologyInput.url topo = VStr u
        /\ events (snd (classify_graph_endpoint env ontologies body w))
           = events w ++ [CallClassify g topo opts])
  /\ (forall v,
        ClassifyRequest.topology body !! "url" = Some v ->
        truthy v = true ->
        exists g topo opts,
          classify_build ontologies body = Ok (g, topo, opts)
          /\ ClassifierTopologyInput.url topo = v
          /\ events (snd (classify_graph_endpoint env ontologies body w))
             = events w ++ [CallClassify g topo opts]).
Proof.
  intros Hfloat.
  pose proof (classify_build_eq ontologies body) as Hbuild.
  cbv zeta in Hbuild. rewrite Hfloat in Hbuild.
  split.
  - intros topology_id known u Hid Hurl Hcontent Hknown Hu Hne.
    do 3 eexists. split; [exact Hbuild|].
    split; [|by apply classify_graph_endpoint_events].
    simpl. rewrite (topology_payload_resolved _ _ topology_id u); try done.
    + unfold dict_get. by rewrite lookup_insert_eq.
    + unfold known_url. rewrite Hknown, Hu. by destruct u.
  - intros v Hv Htruthy.
    do 3 eexists. split; [exact Hbuild|].
    split; [|by apply classify_graph_endpoint_events].
    simpl. rewrite topology_payload_explicit.
    + unfold dict_get. by rewrite Hv.
    + unfold get_truthy. by rewrite Hv.
Qed.

(** The values [float] rejects with a [TypeError]. *)
Lemma py_float_type_error v :
  match v with VNone | VList _ | VDict _ => True | _ => False end ->
  py_float v
  = Raise (Exn TypeError
             ("float() argument must be a string or a real number, not '"
                +:+ type_name v +:+ "'")).
Proof. by destruct v. Qed.

(** An integer too large for a double: [float] raises [OverflowError],
    which the handler of the classify request does not name, so the
    exception leaves the endpoint as it is. *)
Lemma classify_overflow_escapes ontologies graph topology :
  classify_build ontologies
    (ClassifyRequest.mk graph topology {[ "min_confidence" := VInt (10 ^ 400) ]})
  = Raise (Exn OverflowError "int too large to convert to float").
Proof.
  rewrite classify_build_eq. cbv zeta. simpl ClassifyRequest.options.
  unfold dict_get_default. rewrite lookup_singleton_eq. simpl default.
  unfold py_float.
  replace (float_of_int (10 ^ 400))
    with (Raise (A := spec_float) (Exn OverflowError "int too large to convert to float"))
    by (vm_compute; reflexivity).
  reflexivity.
Qed.

(** C6, amended. The options of a classify request that builds are read
    with the defaults 0.5, false and the empty mapping; a metadata that is
    not a mapping is replaced by the empty mapping, and a request without
    [min_confidence] always builds.  A [min_confidence] that is a text
    [float] cannot read, or that is [None], a list or a mapping, gives the
    400 error whose detail is the message of the interpreter: it quotes
    the text, and for the other values gives the name of their type. *)
Theorem classify_options_parsed ontologies body :
  let options := ClassifyRequest.options body in
  (forall g topo o,
      classify_build ontologies body = Ok (g, topo, o) ->
      (options !! "min_confidence" = None ->
         ClassifierOptions.min_confidence o = float_0_5)
      /\ (options !! "use_llm" = None -> ClassifierOptions.use_llm o = false)
      /\ (options !! "metadata" = None -> ClassifierOptions.metadata o = ∅)
      /\ (forall v, options !! "metadata" = Some v ->
            ClassifierOptions.metadata o
            = match v with VDict d => d | _ => ∅ end))
  /\ (options !! "min_confidence" = None ->
        exists g topo o, classify_build ontologies body = Ok (g, topo, o))
  /\ (forall s,
        options !! "min_confidence" = Some (VStr s) ->
        float_of_str s = None ->
        classify_build ontologies body
        = Raise (HTTPException HTTP_400_BAD_REQUEST
                   ("Invalid classify request: could not convert string to float: "
                      +:+ repr_str s)))
  /\ (forall v,
        options !! "min_confidence" = Some v ->
        match v with VNone | VList _ | VDict _ => True | _ => False end ->
        classify_build ontologies body
        = Raise (HTTPException HTTP_400_BAD_REQUEST
                   ("Invalid classify request: "
                      +:+ "float() argument must be a string or a real number, not '"
                      +:+ type_name v +:+ "'"))).
Proof.
  intros options. subst options.
  pose proof (classify_build_eq ontologies body) as Hbuild. cbv zeta in Hbuild.
  split; [|split; [|split]].
  - intros g topo o Hok. rewrite Hbuild in Hok.
    destruct (py_float _) as [f|e] eqn:Hfloat; [|by destruct (caught_by _ _)].
    inversion Hok; subst; clear Hok. simpl.
    split; [|split; [|split]].
    + intros Hnone. unfold dict_get_default in Hfloat.
      rewrite Hnone in Hfloat. simpl in Hfloat. by inversion Hfloat.
    + intros Hnone. unfold dict_get_default. by rewrite Hnone.
    + intros Hnone. unfold classify_metadata, dict_get. by rewrite Hnone.
    + intros v Hv. unfold classify_metadata, dict_get, dict_get_default.
      rewrite Hv. simpl. by destruct v.
  - intros Hnone. rewrite Hbuild. unfold dict_get_default.
    rewrite Hnone. simpl. eauto.
  - intros s Hs Hparse. rewrite Hbuild. unfold dict_get_default.
    rewrite Hs. simpl. by rewrite Hparse.
  - intros v Hv Hkind. rewrite Hbuild. unfold dict_get_default.
    rewrite Hv. simpl default. by rewrite (py_float_type_error v Hkind).
Qed.

End Classify.

Lemma classify_resolves_topology_witness :
  (exists g topo opts,
      classify_build (H := demo_runtime) _ONTOLOGIES
        (demo_classify_body {[ "id" := VStr "brick_v1.4.4" ]} ∅) = Ok (g, topo, opts)
      /\ ClassifierTopologyInput.url topo
         = VStr "https://brickschema.org/schema/1.4.4/Brick.jsonld"
      /\ events (snd (classify_graph_endpoint (H := demo_runtime) (demo_env [])
                        _ONTOLOGIES
                        (demo_classify_body {[ "id" := VStr "brick_v1.4.4" ]} ∅)
                        initial_world))
         = events initial_world ++ [CallClassify g topo opts])
  /\ (exists g topo opts,
        classify_build (H := demo_runtime) _ONTOLOGIES
          (demo_classify_body
             {[ "id" := VStr "brick_v1.4.4"; "url" := VStr "https://example.org/own.ttl" ]}
             ∅) = Ok (g, topo, opts)
        /\ ClassifierTopologyInput.url topo = VStr "https://example.org/own.ttl"
        /\ events (snd (classify_graph_endpoint (H := demo_runtime) (demo_env [])
                          _ONTOLOGIES
                          (demo_classify_body
                             {[ "id" := VStr "brick_v1.4.4";
                                "url" := VStr "https://example.org/own.ttl" ]} ∅)
                          initial_world))
           = events initial_world ++ [CallClassify g topo opts]).
Proof.
  split.
  - refine (proj1 (classify_resolves_topology (H := demo_runtime) (demo_env [])
                     _ONTOLOGIES
                     (demo_classify_body {[ "id" := VStr "brick_v1.4.4" ]} ∅)
                     initial_world float_0_5 _)
              "brick_v1.4.4" demo_brick
              "https://brickschema.org/schema/1.4.4/Brick.jsonld" _ _ _ _ _ _);
      try (vm_compute; reflexivity).
    discriminate.
  - refine (proj2 (classify_resolves_topology (H := demo_runtime) (demo_env [])
                     _ONTOLOGIES
                     (demo_classify_body
                        {[ "id" := VStr "brick_v1.4.4";
                           "url" := VStr "https://example.org/own.ttl" ]} ∅)
                     initial_world float_0_5 _)
              (VStr "https://example.org/own.ttl") _ _);
      vm_compute; reflexivity.
Defined.

(** C6, as stated, fails.  Were the detail of the 400 error to name the
    offending value, two requests answered with the same detail would
    have the same offending value; an empty list and a list holding 1 are
    answered alike. *)
Lemma classify_detail_does_not_name_value :
  ~ (forall v1 v2 detail,
       classify_build (H := demo_runtime) _ONTOLOGIES
         (demo_classify_body ∅ {[ "min_confidence" := v1 ]})
       = Raise (HTTPException HTTP_400_BAD_REQUEST detail) ->
       classify_build (H := demo_runtime) _ONTOLOGIES
         (demo_classify_body ∅ {[ "min_confidence" := v2 ]})
       = Raise (HTTPException HTTP_400_BAD_REQUEST detail) ->
       v1 = v2).
Proof.
  intros Hnames.
  assert (Hsame : VList [] = VList [VInt 1]); [|discriminate].
  apply (Hnames (VList []) (VList [VInt 1])
           ("Invalid classify request: "
              +:+ "float() argument must be a string or a real number, not 'list'"));
    vm_compute; reflexivity.
Qed.

Lemma classify_options_parsed_witness :
  (exists g topo o,
      classify_build (H := demo_runtime) _ONTOLOGIES
        (demo_classify_body ∅ {[ "metadata" := VStr "x" ]}) = Ok (g, topo, o))
  /\ classify_build (H := demo_runtime) _ONTOLOGIES
       (demo_classify_body ∅ {[ "min_confidence" := VStr "abc" ]})
     = Raise (HTTPException 400
                "Invalid classify request: could not convert string to float: 'abc'")
  /\ classify_build (H := demo_runtime) _ONTOLOGIES
       (demo_classify_body ∅ {[ "min_confidence" := VList [] ]})
     = Raise (HTTPException 400
                "Invalid classify request: float() argument must be a string or a real number, not 'list'").
Proof.
  split; [|split].
  - apply (proj1 (proj2 (classify_options_parsed (H := demo_runtime) _ONTOLOGIES
                           (demo_classify_body ∅ {[ "metadata" := VStr "x" ]})))).
    vm_compute; reflexivity.
  - apply (proj1 (proj2 (proj2 (classify_options_parsed (H := demo_runtime)
                                  _ONTOLOGIES
                                  (demo_classify_body ∅
                                     {[ "min_confidence" := VStr "abc" ]})))) "abc");
      vm_compute; reflexivity.
  - apply (proj2 (proj2 (proj2 (classify_options_parsed (H := demo_runtime)
                                  _ONTOLOGIES
                                  (demo_classify_body ∅
                                     {[ "min_confidence" := VList [] ]}))))
             (VList []));
      [vm_compute; reflexivity | exact I].
Defined.

(** ** The comparison of the interpreter against the exact order *)

Section Numbers.
Context `{PyRuntime}.

Lemma digits2_pos_bounds m :
  2 ^ (Z.pos (digits2_pos m) - 1) <= Z.pos m < 2 ^ Z.pos (digits2_pos m).
Proof.
  induction m as [m IH|m IH|]; simpl digits2_pos.
  - rewrite Pos2Z.inj_succ, (Pos2Z.inj_xI m).
    replace (Z.succ (Z.pos (digits2_pos m)) - 1) with (Z.succ (Z.pos (digits2_pos m) - 1))
      by lia.
    rewrite !Z.pow_succ_r by lia. lia.
  - rewrite Pos2Z.inj_succ, (Pos2Z.inj_xO m).
    replace (Z.succ (Z.pos (digits2_pos m)) - 1) with (Z.succ (Z.pos (digits2_pos m) - 1))
      by lia.
    rewrite !Z.pow_succ_r by lia. lia.
  - simpl. lia.
Qed.

(** A canonical mantissa has at most 53 bits, and exactly 53 above the
    least exponent. *)
Lemma bounded_mantissa m e :
  bounded prec emax m e = true ->
  -1074 <= e /\ Z.pos m < 2 ^ 53 /\ (-1074 < e -> 2 ^ 52 <= Z.pos m).
Proof.
  unfold bounded, canonical_mantissa, fexp, emin, prec, emax.
  intros Hb. apply andb_true_iff in Hb as [Hcanon _].
  apply Z.eqb_eq in Hcanon.
  pose proof (digits2_pos_bounds m) as [Hlow Hhigh].
  assert (Hd : Z.pos (digits2_pos m) <= 53) by lia.
  split; [lia|]. split.
  - eapply Z.lt_le_trans; [exact Hhigh|]. apply Z.pow_le_mono_r; lia.
  - intros He. assert (Hd53 : Z.pos (digits2_pos m) = 53) by lia.
    rewrite Hd53 in Hlow. exact Hlow.
Qed.

Lemma dyadic_ltb_same_exponent a b e : dyadic_ltb a e b e = (a <? b).
Proof.
  unfold dyadic_ltb. rewrite Z.min_id, Z.sub_diag. simpl. by rewrite !Z.mul_1_r.
Qed.

Lemma dyadic_ltb_lower a ea b eb :
  ea <= eb -> dyadic_ltb a ea b eb = (a <? b * 2 ^ (eb - ea)).
Proof.
  intros Hle. unfold dyadic_ltb. rewrite Z.min_l by done.
  by rewrite Z.sub_diag, Z.mul_1_r.
Qed.

Lemma dyadic_ltb_higher a ea b eb :
  eb <= ea -> dyadic_ltb a ea b eb = (a * 2 ^ (ea - eb) <? b).
Proof.
  intros Hle. unfold dyadic_ltb. rewrite Z.min_r by done.
  by rewrite Z.sub_diag, Z.mul_1_r.
Qed.

Lemma pow2_ge_2 k : 1 <= k -> 2 <= 2 ^ k.
Proof.
  intros Hk. change 2 with (2 ^ 1) at 1. apply Z.pow_le_mono_r; lia.
Qed.

(** Two canonical positive mantissas compare as their exponents do. *)
Lemma canonical_lower_exponent m1 e1 m2 e2 :
  bounded prec emax m1 e1 = true -> bounded prec emax m2 e2 = true ->
  e1 < e2 -> Z.pos m1 < Z.pos m2 * 2 ^ (e2 - e1).
Proof.
  intros Hb1 Hb2 Hlt.
  apply bounded_mantissa in Hb1 as (Hmin1 & Hhigh1 & _).
  apply bounded_mantissa in Hb2 as (_ & _ & Hlow2).
  specialize (Hlow2 ltac:(lia)).
  pose proof (pow2_ge_2 (e2 - e1) ltac:(lia)) as Hpow.
  change (2 ^ 53) with (2 ^ 52 * 2) in Hhigh1. nia.
Qed.

Lemma compare_cont_Eq m1 m2 : Pos.compare_cont Eq m1 m2 = (Z.pos m1 ?= Z.pos m2).
Proof. reflexivity. Qed.

Lemma SFltb_exact g t :
  valid_binary prec emax g = true -> valid_binary prec emax t = true ->
  SFltb g t = xnumber_ltb (xnumber_of_float g) (xnumber_of_float t).
Proof.
  intros Hg Ht. unfold SFltb.
  destruct g as [sg|sg| |sg mg eg], t as [st|st| |st mt et]; simpl;
    try reflexivity; try (by destruct sg); try (by destruct st);
    try (by destruct sg, st).
  - (* zero, finite *)
    unfold dyadic_ltb. destruct st; symmetry.
    + apply Z.ltb_ge.
      pose proof (Z.pow_nonneg 2 (et - Z.min 0 et) ltac:(lia)). nia.
    + apply Z.ltb_lt.
      assert (0 < 2 ^ (et - Z.min 0 et)) by (apply Z.pow_pos_nonneg; lia). nia.
  - (* finite, zero *)
    unfold dyadic_ltb. destruct sg; symmetry.
    + apply Z.ltb_lt.
      assert (0 < 2 ^ (eg - Z.min eg 0)) by (apply Z.pow_pos_nonneg; lia). nia.
    + apply Z.ltb_ge.
      pose proof (Z.pow_nonneg 2 (eg - Z.min eg 0) ltac:(lia)). nia.
  - (* finite, finite *)
    simpl in Hg, Ht.
    destruct sg, st.
    + (* both negative *)
      destruct (Z.compare_spec eg et) as [Heq|Hlt|Hgt].
      * subst. rewrite dyadic_ltb_same_exponent, compare_cont_Eq.
        destruct (Z.compare_spec (Z.pos mg) (Z.pos mt)); simpl; symmetry;
          [apply Z.ltb_ge|apply Z.ltb_ge|apply Z.ltb_lt]; lia.
      * rewrite dyadic_ltb_lower by lia. symmetry. apply Z.ltb_ge.
        pose proof (canonical_lower_exponent mg eg mt et Hg Ht Hlt). lia.
      * rewrite dyadic_ltb_higher by lia. symmetry. apply Z.ltb_lt.
        pose proof (canonical_lower_exponent mt et mg eg Ht Hg ltac:(lia)). lia.
    + symmetry. unfold dyadic_ltb. apply Z.ltb_lt.
      assert (0 < 2 ^ (eg - Z.min eg et)) by (apply Z.pow_pos_nonneg; lia).
      assert (0 < 2 ^ (et - Z.min eg et)) by (apply Z.pow_pos_nonneg; lia). nia.
    + symmetry. unfold dyadic_ltb. apply Z.ltb_ge.
      assert (0 < 2 ^ (eg - Z.min eg et)) by (apply Z.pow_pos_nonneg; lia).
      assert (0 < 2 ^ (et - Z.min eg et)) by (apply Z.pow_pos_nonneg; lia). nia.
    + destruct (Z.compare_spec eg et) as [Heq|Hlt|Hgt].
      * subst. rewrite dyadic_ltb_same_exponent, compare_cont_Eq.
        destruct (Z.compare_spec (Z.pos mg) (Z.pos mt)); simpl; symmetry;
          [apply Z.ltb_ge|apply Z.ltb_lt|apply Z.ltb_ge]; lia.
      * rewrite dyadic_ltb_lower by lia. symmetry. apply Z.ltb_lt.
        by apply canonical_lower_exponent.
      * rewrite dyadic_ltb_higher by lia. symmetry. apply Z.ltb_ge.
        pose proof (canonical_lower_exponent mt et mg eg Ht Hg ltac:(lia)). lia.
Qed.

Lemma int_lt_float_exact z t :
  int_lt_float z t = xnumber_ltb (XDyadic z 0) (xnumber_of_float t).
Proof.
  destruct t as [st|st| |st mt et]; simpl; try reflexivity.
  - by rewrite dyadic_ltb_same_exponent.
  - destruct (Z.leb_spec 0 et) as [Hle|Hlt].
    + rewrite dyadic_ltb_lower by lia. rewrite Z.shiftl_mul_pow2 by lia.
      by rewrite Z.sub_0_r.
    + rewrite dyadic_ltb_higher by lia. rewrite Z.shiftl_mul_pow2 by lia.
      by replace (0 - et) with (- et) by lia.
Qed.

(** The comparison the endpoints run is the exact order of the numbers. *)
Lemma py_lt_float_exact v t b :
  (forall f, v = VFloat f -> valid_binary prec emax f = true) ->
  valid_binary prec emax t = true ->
  py_lt_float v t = Ok b ->
  exists x, xnumber_of_value v = Some x /\ b = xnumber_ltb x (xnumber_of_float t).
Proof.
  intros Hv Ht. destruct v as [|c|z|f|s|l|d]; simpl; intros Hlt;
    inversion Hlt; subst; eexists; (split; [reflexivity|]).
  - apply int_lt_float_exact.
  - apply int_lt_float_exact.
  - apply SFltb_exact; [by apply Hv|done].
Qed.

End Numbers.

(** ** The enhance request *)

Section Enhance.
Context `{PyRuntime}.

Lemma enhance_build_eq body w :
  enhance_build body w =
    let g := GraphResponse.to_graph (EnhanceRequest.graph body) in
    let classified := filter (fun n => has_class n = true) (Graph.nodes g) in
    let bad_request e :=
      if caught_by [ValueError; TypeError] e then
        Raise (HTTPException HTTP_400_BAD_REQUEST
                 ("Invalid enhance request: " +:+ exn_str e))
      else Raise e in
    match enhance_llm_options (EnhanceRequest.options body) with
    | Raise e => (bad_request e, w)
    | Ok o =>
        match filter_r (below_threshold (LLMOptions.min_confidence_threshold o))
                classified with
        | Raise e => (bad_request e, w)
        | Ok low =>
            (Ok (g, o),
             World (_last_device_uids_by_id w)
               (events w ++
                  [Log "Enhance request: %d nodes, %d classified, %d below threshold %.2f"
                     [VInt (Z.of_nat (length (Graph.nodes g)));
                      VInt (Z.of_nat (length classified));
                      VInt (Z.of_nat (length low));
                      VFloat (LLMOptions.min_confidence_threshold o)]]))
        end
    end.
Proof.
  unfold enhance_build, try_exceptM, logger_info, emit, raise, lift, py_dict,
    mbind, mret, M_bind, M_ret. cbv zeta.
  destruct (enhance_llm_options _) as [o|e]; simpl.
  - destruct (filter_r _ _) as [low|e]; simpl; [done|].
    by destruct (caught_by _ e).
  - by destruct (caught_by _ e).
Qed.

Lemma enhance_llm_options_eq opts :
  enhance_llm_options opts =
    match py_float (dict_get_default opts "min_confidence_threshold" (VFloat float_0_7)) with
    | Raise e => Raise e
    | Ok threshold =>
        match py_int (dict_get_default opts "batch_size" (VInt 10)) with
        | Raise e => Raise e
        | Ok batch_size =>
            Ok (LLMOptions.mk
                  (dict_get_default opts "backend" (VStr "transformers"))
                  (dict_get_default opts "model"
                     (VStr "HuggingFaceTB/SmolLM2-1.7B-Instruct"))
                  (dict_get_default opts "base_url" (VStr "http://localhost:11434/v1"))
                  threshold batch_size
                  (truthy (dict_get_default opts "force" (VBool false))))
        end
    end.
Proof.
  unfold enhance_llm_options. cbv zeta.
  destruct (py_float _); simpl; [|done].
  by destruct (py_int _).
Qed.

(** How the options of an enhance request are read, and what the log
    record of the request is made of, in the terms of the endpoint. *)
Lemma enhance_options_read body :
  let opts := EnhanceRequest.options body in
  (forall o,
      enhance_llm_options opts = Ok o ->
      (opts !! "backend" = None -> LLMOptions.backend o = VStr "transformers")
      /\ (opts !! "model" = None ->
            LLMOptions.model o = VStr "HuggingFaceTB/SmolLM2-1.7B-Instruct")
      /\ (opts !! "base_url" = None ->
            LLMOptions.base_url o = VStr "http://localhost:11434/v1")
      /\ (opts !! "min_confidence_threshold" = None ->
            LLMOptions.min_confidence_threshold o = float_0_7)
      /\ (opts !! "batch_size" = None -> LLMOptions.batch_size o = 10)
      /\ (opts !! "force" = None -> LLMOptions.force o = false))
  /\ (opts !! "min_confidence_threshold" = None ->
      opts !! "batch_size" = None ->
      exists o, enhance_llm_options opts = Ok o)
  /\ (opts !! "min_confidence_threshold" = None ->
      forall w g o w',
        enhance_build body w = (Ok (g, o), w') ->
        LLMOptions.min_confidence_threshold o = float_0_7
        /\ exists low,
             filter_r (below_threshold float_0_7)
               (filter (fun n => has_class n = true) (Graph.nodes g)) = Ok low
             /\ events w'
                = events w ++
                  [Log "Enhance request: %d nodes, %d classified, %d below threshold %.2f"
                     [VInt (Z.of_nat (length (Graph.nodes g)));
                      VInt (Z.of_nat
                              (length (filter (fun n => has_class n = true)
                                         (Graph.nodes g))));
                      VInt (Z.of_nat (length low));
                      VFloat float_0_7]]).
Proof.
  intros opts. subst opts.
  assert (Hthreshold : forall o,
            EnhanceRequest.options body !! "min_confidence_threshold" = None ->
            enhance_llm_options (EnhanceRequest.options body) = Ok o ->
            LLMOptions.min_confidence_threshold o = float_0_7).
  { intros o Hnone Hok. rewrite enhance_llm_options_eq in Hok.
    unfold dict_get_default in Hok at 1. rewrite Hnone in Hok. simpl in Hok.
    destruct (py_int _); [|done]. by inversion Hok. }
  split; [|split].
  - intros o Hok. split; [|split; [|split; [|split; [|split]]]];
      try (intros Hnone; rewrite enhance_llm_options_eq in Hok;
           destruct (py_float _); [|done];
           destruct (py_int _) as [b|] eqn:Hint; [|done];
           inversion Hok; subst; clear Hok; simpl;
           unfold dict_get_default in *; rewrite Hnone in *; simpl in *;
           by (done || inversion Hint)).
    intros Hnone. by apply Hthreshold.
  - intros Hnone1 Hnone2. rewrite enhance_llm_options_eq.
    unfold dict_get_default. rewrite Hnone1, Hnone2. simpl. eauto.
  - intros Hnone w g o w' Hrun. rewrite enhance_build_eq in Hrun. cbv zeta in Hrun.
    destruct (enhance_llm_options _) as [o'|e] eqn:Hopts;
      [|inversion Hrun; by destruct (caught_by _ e)].
    pose proof (Hthreshold o' Hnone eq_refl) as Ho'.
    destruct (filter_r _ _) as [low|e] eqn:Hlow;
      [|inversion Hrun; by destruct (caught_by _ e)].
    inversion Hrun; subst; clear Hrun. simpl.
    split; [done|]. exists low. rewrite <- Ho'. done.
Qed.

Lemma has_class_classified n : has_class n = true <-> classified n.
Proof.
  unfold has_class, classified.
  destruct (Node.attrs n !! "class") as [v|]; split; intros Hn.
  - by exists v.
  - done.
  - done.
  - by destruct Hn.
Qed.

Lemma filter_r_exact {A} (p : A -> result bool) (P : A -> Prop)
    `{!forall x, Decision (P x)} xs kept :
  (forall x b, x ∈ xs -> p x = Ok b -> (b = true <-> P x)) ->
  filter_r p xs = Ok kept -> kept = filter P xs.
Proof.
  revert kept. induction xs as [|x xs IH]; simpl; intros kept Hp Hkept.
  - by inversion Hkept.
  - destruct (p x) as [b|] eqn:Hx; [|done]. simpl in Hkept.
    destruct (filter_r p xs) as [kept'|]; [|done]. simpl in Hkept.
    inversion Hkept; subst; clear Hkept.
    assert (kept' = filter P xs) as ->.
    { apply IH; [|done]. intros x' b' Hin. apply Hp, elem_of_cons. by right. }
    pose proof (Hp x b ltac:(apply elem_of_cons; by left) Hx) as HP.
    destruct b.
    + rewrite filter_cons_True; [done|]. by apply HP.
    + rewrite filter_cons_False; [done|]. intros HPx. by apply HP in HPx.
Qed.

(** The test of the log is the exact order of the confidence and the
    threshold. *)
Lemma below_threshold_exact threshold n b :
  canonical_confidence n ->
  valid_binary prec emax threshold = true ->
  below_threshold threshold n = Ok b ->
  (b = true <-> confidence_below (xnumber_of_float threshold) n).
Proof.
  intros Hcanon Hvalid. unfold below_threshold, confidence_below, dict_get_default.
  destruct (Node.attrs n !! "class_confidence") as [v|] eqn:Hv; simpl default;
    intros Hlt.
  - apply py_lt_float_exact in Hlt as (x & Hx & ->); [|intros f ->; by apply Hcanon|done].
    by rewrite Hx.
  - simpl in Hlt. inversion Hlt; subst.
    by rewrite (SFltb_exact float_0_0 threshold eq_refl Hvalid).
Qed.

Lemma low_confidence_exact threshold nodes low :
  Forall canonical_confidence nodes ->
  valid_binary prec emax threshold = true ->
  filter_r (below_threshold threshold) (filter (fun n => has_class n = true) nodes)
  = Ok low ->
  filter (fun n => has_class n = true) nodes = filter classified nodes
  /\ low = filter (confidence_below (xnumber_of_float threshold))
             (filter classified nodes).
Proof.
  intros Hcanon Hvalid Hlow.
  assert (Hsame : filter (fun n => has_class n = true) nodes = filter classified nodes)
    by (apply list_filter_iff, has_class_classified).
  split; [done|]. rewrite <- Hsame.
  eapply filter_r_exact; [|exact Hlow].
  intros n b Hin. apply below_threshold_exact; [|done].
  apply list_elem_of_filter in Hin as [_ Hin].
  rewrite Forall_forall in Hcanon. by apply Hcanon.
Qed.

(** C7. An enhance option left out of the request takes its default:
    "transformers", the SmolLM2 model, the local endpoint, 0.7, 10 and
    false; a request leaving out the threshold and the batch size always
    has its options built.  A request leaving out the threshold hands the
    double 6305039478318694 * 2 ^ -53, the one nearest to 7/10, to the
    service, and its log record carries the number of nodes, the number
    of nodes that have a class, and the number of the latter whose
    confidence, 0 when there is none, is a number below that double. *)
Theorem enhance_defaults body :
  let opts := EnhanceRequest.options body in
  (forall o,
      enhance_llm_options opts = Ok o ->
      (opts !! "backend" = None -> LLMOptions.backend o = VStr "transformers")
      /\ (opts !! "model" = None ->
            LLMOptions.model o = VStr "HuggingFaceTB/SmolLM2-1.7B-Instruct")
      /\ (opts !! "base_url" = None ->
            LLMOptions.base_url o = VStr "http://localhost:11434/v1")
      /\ (opts !! "min_confidence_threshold" = None ->
            LLMOptions.min_confidence_threshold o = float_0_7)
      /\ (opts !! "batch_size" = None -> LLMOptions.batch_size o = 10)
      /\ (opts !! "force" = None -> LLMOptions.force o = false))
  /\ (opts !! "min_confidence_threshold" = None ->
      opts !! "batch_size" = None ->
      exists o, enhance_llm_options opts = Ok o)
  /\ (opts !! "min_confidence_threshold" = None ->
      forall w g o w',
        enhance_build body w = (Ok (g, o), w') ->
        LLMOptions.min_confidence_threshold o = float_0_7
        /\ exists low,
             filter_r (below_threshold float_0_7)
               (filter (fun n => has_class n = true) (Graph.nodes g)) = Ok low
             /\ events w'
                = events w ++
                  [Log "Enhance request: %d nodes, %d classified, %d below threshold %.2f"
                     [VInt (Z.of_nat (length (Graph.nodes g)));
                      VInt (Z.of_nat
                              (length (filter (fun n => has_class n = true)
                                         (Graph.nodes g))));
                      VInt (Z.of_nat (length low));
                      VFloat float_0_7]])
  /\ (opts !! "min_confidence_threshold" = None ->
      forall w g o w',
        enhance_build body w = (Ok (g, o), w') ->
        Forall canonical_confidence (Graph.nodes g) ->
        LLMOptions.min_confidence_threshold o
        = S754_finite false 6305039478318694 (-53)
        /\ g = GraphResponse.to_graph (EnhanceRequest.graph body)
        /\ events w'
           = events w ++
             [Log "Enhance request: %d nodes, %d classified, %d below threshold %.2f"
                [VInt (Z.of_nat (length (Graph.nodes g)));
                 VInt (Z.of_nat (length (filter classified (Graph.nodes g))));
                 VInt (Z.of_nat
                         (length
                            (filter (confidence_below (XDyadic 6305039478318694 (-53)))
                               (filter classified (Graph.nodes g)))));
                 VFloat (S754_finite false 6305039478318694 (-53))]])
  /\ 2 * Z.abs (10 * 6305039478318694 - 7 * 2 ^ 53) < 10.
Proof.
  intros opts. subst opts.
  destruct (enhance_options_read body) as (Hread & Htotal & Hlog).
  split; [done|]. split; [done|]. split; [done|]. split; [|by vm_compute].
  intros Hnone w g o w' Hrun Hcanon.
  destruct (Hlog Hnone w g o w' Hrun) as (Hthreshold & low & Hlow & Hevents).
  split; [by rewrite Hthreshold|]. split.
  - rewrite enhance_build_eq in Hrun. cbv zeta in Hrun.
    destruct (enhance_llm_options _) as [o'|e]; [|by destruct (caught_by _ e)].
    destruct (filter_r _ _) as [low'|e]; [|by destruct (caught_by _ e)].
    by inversion Hrun.
  - apply (low_confidence_exact float_0_7) in Hlow as [Hclassified ->];
      [|done|by vm_compute].
    by rewrite Hevents, Hclassified.
Qed.

Lemma Forall2_map_r {A B} (P : A -> B -> Prop) (f : A -> B) xs :
  (forall x, P x (f x)) -> Forall2 P xs (map f xs).
Proof. intros HP. induction xs; simpl; constructor; auto. Qed.

(** C9. Once the request has built, whatever the enhancement service
    answers, with a true or a false success flag, the endpoint returns a
    response made of the encoded graph of the answer, its enhancement
    records in order, each with its seven fields unchanged, its success
    flag, its error texts and the two counts of its metadata, 0 standing
    for a count that is not there. *)
Theorem enhance_response_bundles env body w g o w1 :
  enhance_build body w = (Ok (g, o), w1) ->
  let answer := enhance_graph_sync env g o in
  exists response,
    fst (enhance_graph_endpoint env body w) = Ok response
    /\ EnhanceResponse.graph response
       = GraphResponse.from_graph (EnhanceResult.graph answer)
    /\ EnhanceResponse.enhancements response
       = map to_EnhancementResponse (EnhanceResult.enhancements answer)
    /\ EnhanceResponse.success response = EnhanceResult.success answer
    /\ EnhanceResponse.errors response = EnhanceResult.errors answer
    /\ EnhanceResponse.nodes_evaluated response
       = match EnhanceResult.metadata answer !! "nodes_evaluated" with
         | Some n => n
         | None => 0
         end
    /\ EnhanceResponse.nodes_enhanced response
       = match EnhanceResult.metadata answer !! "nodes_enhanced" with
         | Some n => n
         | None => 0
         end
    /\ Forall2
         (fun e r =>
            EnhancementResponse.node_id r = Enhancement.node_id e
            /\ EnhancementResponse.original_class r = Enhancement.original_class e
            /\ EnhancementResponse.original_confidence r
               = Enhancement.original_confidence e
            /\ EnhancementResponse.suggested_class r = Enhancement.suggested_class e
            /\ EnhancementResponse.llm_confidence r = Enhancement.llm_confidence e
            /\ EnhancementResponse.reasoning r = Enhancement.reasoning e
            /\ EnhancementResponse.applied r = Enhancement.applied e)
         (EnhanceResult.enhancements answer)
         (EnhanceResponse.enhancements response).
Proof.
  intros Hbuild answer. subst answer.
  unfold enhance_graph_endpoint, logger_info, emit, mbind, mret, M_bind, M_ret.
  rewrite Hbuild. simpl.
  eexists. split; [reflexivity|]. simpl.
  do 6 (split; [done|]).
  apply Forall2_map_r. intros e. by repeat split.
Qed.

End Enhance.

Lemma enhance_defaults_witness :
  events demo_world_enhance
  = [Log "Enhance request: %d nodes, %d classified, %d below threshold %.2f"
       [VInt 3; VInt 2; VInt 1; VFloat (S754_finite false 6305039478318694 (-53))]].
Proof.
  assert (Hcanon : Forall canonical_confidence (Graph.nodes demo_graph)).
  { repeat constructor; intros f Hf; vm_compute in Hf; inversion Hf; reflexivity. }
  assert (Hnone : EnhanceRequest.options demo_enhance_body
                    !! "min_confidence_threshold" = None)
    by (vm_compute; reflexivity).
  assert (Hrun : enhance_build (H := demo_runtime) demo_enhance_body initial_world
                 = (Ok (demo_graph, demo_llm_options), demo_world_enhance))
    by (vm_compute; reflexivity).
  pose proof (proj2 (proj2 (proj1 (proj2 (proj2 (proj2
                (enhance_defaults (H := demo_runtime) demo_enhance_body))))
                Hnone initial_world demo_graph demo_llm_options demo_world_enhance
                Hrun Hcanon))) as Hevents.
  vm_compute in Hevents. vm_compute. exact Hevents.
Defined.

Lemma enhance_response_bundles_witness :
  exists response,
    fst (enhance_graph_endpoint (H := demo_runtime) demo_enhance_env demo_enhance_body
           initial_world) = Ok response
    /\ EnhanceResponse.graph response = GraphResponse.from_graph demo_graph
    /\ EnhanceResponse.enhancements response
       = [EnhancementResponse.mk "ahu-1" (Some "AHU") float_0_5 "VAV" float_0_7
            "because" true;
          EnhancementResponse.mk "vav-1" None float_0_0 "VAV" float_0_5 "unsure"
            false]
    /\ EnhanceResponse.success response = false
    /\ EnhanceResponse.errors response = ["model unavailable"]
    /\ EnhanceResponse.nodes_evaluated response = 3
    /\ EnhanceResponse.nodes_enhanced response = 0.
Proof.
  assert (Hrun : enhance_build (H := demo_runtime) demo_enhance_body initial_world
                 = (Ok (demo_graph, demo_llm_options), demo_world_enhance))
    by (vm_compute; reflexivity).
  destruct (enhance_response_bundles (H := demo_runtime) demo_enhance_env
              demo_enhance_body initial_world demo_graph demo_llm_options
              demo_world_enhance Hrun)
    as (response & Hfst & Hgraph & Henh & Hsuccess & Herrors & Heval & Hdone & Hall).
  exists response. split; [exact Hfst|].
  split; [exact Hgraph|].
  split.
  { clear -Hall. simpl in Hall.
    inversion Hall as [|e1 r1 es1 rs1 Hfirst Hrest1]; subst.
    inversion Hrest1 as [|e2 r2 es2 rs2 Hsecond Hrest2]; subst.
    inversion Hrest2; subst.
    destruct r1, r2; simpl in *.
    destruct Hfirst as (-> & -> & -> & -> & -> & -> & ->).
    destruct Hsecond as (-> & -> & -> & -> & -> & -> & ->).
    reflexivity. }
  split; [exact Hsuccess|]. split; [exact Herrors|].
  split; [rewrite Heval|rewrite Hdone]; vm_compute; reflexivity.
Defined.

(** ** The ontology fetch *)

Section Ontology.
Context `{PyRuntime}.

Lemma get_ontology_fetch_eq env ontologies ontology_id ontology url w :
  ontologies !! ontology_id = Some ontology ->
  OntologyInfo.url ontology = Some url ->
  url <> EmptyString ->
  get_ontology env ontologies ontology_id w =
    (match urlopen_read env url 20 with
     | Raise e => bad_gateway ontology_id e
     | Ok payload_raw =>
         match json_loads payload_raw with
         | Ok v => Ok v
         | Raise e =>
             if caught_by [JSONDecodeError] e then
               match yaml_safe_load (decode_utf8_replace payload_raw) with
               | Ok v => Ok v
               | Raise e' => bad_gateway ontology_id e'
               end
             else bad_gateway ontology_id e
         end
     end,
     World (_last_device_uids_by_id w) (events w ++ [CallUrlopen url 20])).
Proof.
  intros Hknown Hurl Hne. unfold get_ontology. rewrite Hknown, Hurl.
  destruct url as [|c rest]; [done|].
  unfold try_exceptM, fetch, emit, lift, raise, bad_gateway, mbind, M_bind. simpl.
  destruct (urlopen_read _ _ _) as [payload_raw|e]; simpl.
  - destruct (json_loads payload_raw) as [v|e]; simpl; [done|].
    destruct (caught_by [JSONDecodeError] e); simpl.
    + destruct (yaml_safe_load _) as [v|e']; simpl; [done|].
      by destruct (caught_by _ e').
    + by destruct (caught_by _ e).
  - by destruct (caught_by _ e).
Qed.

(** What the fetch does when nothing goes astray, and how it fails on
    the failures its handlers name. *)
Lemma get_ontology_contract env ontologies ontology_id w :
  (ontologies !! ontology_id = None ->
     get_ontology env ontologies ontology_id w
     = (Raise (HTTPException HTTP_404_NOT_FOUND
                 ("Ontology '" +:+ ontology_id +:+ "' not found")), w))
  /\ (forall ontology,
        ontologies !! ontology_id = Some ontology ->
        OntologyInfo.url ontology = None \/ OntologyInfo.url ontology = Some EmptyString ->
        get_ontology env ontologies ontology_id w
        = (Raise (HTTPException HTTP_404_NOT_FOUND
                    ("Ontology '" +:+ ontology_id +:+ "' does not define a URL")), w))
  /\ (forall ontology url,
        ontologies !! ontology_id = Some ontology ->
        OntologyInfo.url ontology = Some url ->
        url <> EmptyString ->
        events (snd (get_ontology env ontologies ontology_id w))
        = events w ++ [CallUrlopen url 20]
        /\ (forall payload_raw v,
              urlopen_read env url 20 = Ok payload_raw ->
              json_loads payload_raw = Ok v ->
              fst (get_ontology env ontologies ontology_id w) = Ok v)
        /\ (forall payload_raw msg v,
              urlopen_read env url 20 = Ok payload_raw ->
              json_loads payload_raw = Raise (Exn JSONDecodeError msg) ->
              yaml_safe_load (decode_utf8_replace payload_raw) = Ok v ->
              fst (get_ontology env ontologies ontology_id w) = Ok v)
        /\ (forall msg,
              urlopen_read env url 20 = Raise (Exn OSError msg) ->
              fst (get_ontology env ontologies ontology_id w)
              = Raise (HTTPException HTTP_502_BAD_GATEWAY
                         ("Failed to fetch ontology '" +:+ ontology_id +:+ "': "
                            +:+ msg)))
        /\ (forall payload_raw msg msg',
              urlopen_read env url 20 = Ok payload_raw ->
              json_loads payload_raw = Raise (Exn JSONDecodeError msg) ->
              yaml_safe_load (decode_utf8_replace payload_raw)
              = Raise (Exn YAMLError msg') ->
              fst (get_ontology env ontologies ontology_id w)
              = Raise (HTTPException HTTP_502_BAD_GATEWAY
                         ("Failed to fetch ontology '" +:+ ontology_id +:+ "': "
                            +:+ msg')))).
Proof.
  split; [|split].
  - intros Hnone. unfold get_ontology. by rewrite Hnone.
  - intros ontology Hknown [Hurl|Hurl]; unfold get_ontology;
      by rewrite Hknown, Hurl.
  - intros ontology url Hknown Hurl Hne.
    rewrite (get_ontology_fetch_eq _ _ _ ontology url w Hknown Hurl Hne). simpl.
    split; [done|]. split; [|split; [|split]].
    + intros payload_raw v -> ->. done.
    + intros payload_raw msg v -> -> ->. done.
    + intros msg ->. done.
    + intros payload_raw msg msg' -> -> ->. done.
Qed.

(** C8, where the code departs from it. A body that [json.loads] cannot
    decode as text raises [UnicodeDecodeError]: neither the inner handler
    ([JSONDecodeError]) nor the outer one ([OSError], [JSONDecodeError],
    [YAMLError]) names it, so the YAML decoder is not tried and the
    exception leaves the endpoint instead of becoming the 502 error. *)
Theorem ontology_undecodable_body_escapes
    env ontologies ontology_id ontology url payload_raw msg w :
  ontologies !! ontology_id = Some ontology ->
  OntologyInfo.url ontology = Some url ->
  url <> EmptyString ->
  urlopen_read env url 20 = Ok payload_raw ->
  json_loads payload_raw = Raise (Exn UnicodeDecodeError msg) ->
  get_ontology env ontologies ontology_id w
  = (Raise (Exn UnicodeDecodeError msg),
     World (_last_device_uids_by_id w) (events w ++ [CallUrlopen url 20])).
Proof.
  intros Hknown Hurl Hne Hread Hjson.
  rewrite (get_ontology_fetch_eq _ _ _ ontology url w Hknown Hurl Hne).
  by rewrite Hread, Hjson.
Qed.

(** A read cut short raises [http.client.IncompleteRead], which is not an
    [OSError]: it leaves the endpoint as well. *)
Lemma ontology_incomplete_read_escapes
    env ontologies ontology_id ontology url msg w :
  ontologies !! ontology_id = Some ontology ->
  OntologyInfo.url ontology = Some url ->
  url <> EmptyString ->
  urlopen_read env url 20 = Raise (Exn IncompleteRead msg) ->
  fst (get_ontology env ontologies ontology_id w) = Raise (Exn IncompleteRead msg).
Proof.
  intros Hknown Hurl Hne Hread.
  rewrite (get_ontology_fetch_eq _ _ _ ontology url w Hknown Hurl Hne).
  by rewrite Hread.
Qed.

End Ontology.

Lemma ontology_undecodable_body_escapes_witness :
  get_ontology (H := demo_runtime)
    (demo_services (demo_scan []) (Ok [Byte.xff]) demo_enhanced)
    _ONTOLOGIES "brick_v1.4.4" initial_world
  = (Raise (Exn UnicodeDecodeError
              "'utf-8' codec can't decode byte 0xff in position 0: invalid start byte"),
     World ∅ [CallUrlopen "https://brickschema.org/schema/1.4.4/Brick.jsonld" 20]).
Proof.
  refine (ontology_undecodable_body_escapes (H := demo_runtime)
            (demo_services (demo_scan []) (Ok [Byte.xff]) demo_enhanced)
            _ONTOLOGIES "brick_v1.4.4" demo_brick
            "https://brickschema.org/schema/1.4.4/Brick.jsonld" [Byte.xff]
            "'utf-8' codec can't decode byte 0xff in position 0: invalid start byte"
            initial_world _ _ _ _ _);
    try (vm_compute; reflexivity).
  discriminate.
Defined.

(** * Further properties of the endpoints *)

(** ** The codec, the other way round *)

Lemma from_node_to_node (n : NodeResponse.t) :
  NodeResponse.from_node (NodeResponse.to_node n) = n.
Proof. by destruct n. Qed.

Lemma from_edge_to_edge (e : EdgeResponse.t) :
  EdgeResponse.from_edge (EdgeResponse.to_edge e) = e.
Proof. by destruct e. Qed.

Lemma from_meta_to_meta (m : GraphMetaResponse.t) :
  GraphMetaResponse.from_meta (GraphMetaResponse.to_meta m) = m.
Proof. by destruct m. Qed.

Lemma from_graph_to_graph (r : GraphResponse.t) :
  GraphResponse.from_graph (GraphResponse.to_graph r) = r.
Proof.
  destruct r as [ns es m].
  unfold GraphResponse.from_graph, GraphResponse.to_graph, GraphResponse.new.
  simpl. f_equal.
  - apply map_round_trip, from_node_to_node.
  - apply map_round_trip, from_edge_to_edge.
  - apply from_meta_to_meta.
Qed.

Lemma to_graph_from_graph (g : Graph.t) :
  GraphResponse.to_graph (GraphResponse.from_graph g) = g.
Proof.
  destruct g as [ns es m].
  unfold GraphResponse.from_graph, GraphResponse.to_graph, GraphResponse.new.
  simpl. f_equal.
  - apply map_round_trip, to_node_from_node.
  - apply map_round_trip, to_edge_from_edge.
  - apply to_meta_from_meta.
Qed.

(** X1. Encoding the decoded form of a wire graph gives the wire graph
    back, with its nodes and edges in their order: with the round trip of
    the graphs, [from_graph] and [to_graph] are inverse of each other, and
    no two wire graphs decode to the same graph. *)
Theorem wire_round_trip :
  (forall r : GraphResponse.t,
      GraphResponse.from_graph (GraphResponse.to_graph r) = r)
  /\ (forall r1 r2 : GraphResponse.t,
        GraphResponse.to_graph r1 = GraphResponse.to_graph r2 -> r1 = r2).
Proof.
  split; [apply from_graph_to_graph|].
  intros r1 r2 Heq.
  by rewrite <- (from_graph_to_graph r1), Heq, from_graph_to_graph.
Qed.

Lemma wire_round_trip_witness :
  GraphResponse.from_graph demo_graph = GraphResponse.from_graph demo_graph.
Proof.
  apply (proj2 wire_round_trip). reflexivity.
Defined.

(** ** Deriving a census entry *)

Section MoreCensus.
Context `{PyRuntime}.

(** X2. Deriving the census entry of a device fails exactly when the
    device has no protocol reference, no identifier, or a text identifier
    [int] rejects; the exception is then a [ValueError] whose message
    starts with the handle of the device. *)
Theorem device_to_census_failure d :
  (bad_identifier d <-> exists e, _device_to_census d = Raise e)
  /\ (forall e, _device_to_census d = Raise e ->
        exists rest, e = Exn ValueError ("Device " +:+ Device.uid d +:+ rest)).
Proof.
  unfold bad_identifier, _device_to_census.
  destruct (Device.protocol_ref d) as [pr|].
  - destruct (ProtocolRef.device_id pr) as [[z|s]|]; simpl.
    + split; [split; [done|by intros [e He]]|done].
    + destruct (int_of_str s) as [z|]; simpl.
      * split; [split; [done|by intros [e He]]|done].
      * split; [split; eauto|]. intros e He. inversion He. eauto.
    + split; [split; eauto|]. intros e He. inversion He. eauto.
  - split; [split; eauto|]. intros e He. inversion He. eauto.
Qed.

(** X3. A text identifier that [int] reads gives the entry of the
    integer it denotes: the identifier, the address, the name, the
    vendor, the number of points and the handle of the device. *)
Theorem text_identifier_as_integer uid name manufacturer points address s z :
  int_of_str s = Some z ->
  _device_to_census
    (Device.mk uid name manufacturer points
       (Some (ProtocolRef.mk address (Some (IdStr s)))))
  = _device_to_census
      (Device.mk uid name manufacturer points
         (Some (ProtocolRef.mk address (Some (IdInt z)))))
  /\ _device_to_census
       (Device.mk uid name manufacturer points
          (Some (ProtocolRef.mk address (Some (IdStr s)))))
     = Ok (DeviceCensusEntry.mk address z name manufacturer
             (Z.of_nat (length points)) (Some uid)).
Proof.
  intros Hs. unfold _device_to_census. simpl. by rewrite Hs.
Qed.

Lemma str_or_not_empty s fallback :
  fallback <> EmptyString -> str_or s fallback <> EmptyString.
Proof. by destruct s. Qed.

Lemma append_empty_r s : s +:+ EmptyString = s.
Proof.
  induction s as [|c s IH]; [done|].
  change (String c s +:+ EmptyString) with (String c (s +:+ EmptyString)).
  by rewrite IH.
Qed.

(** [sep.join] with "; " puts the first text first and each further
    one behind a "; ". *)
Lemma str_join_joined errors : str_join "; " errors = joined_errors errors.
Proof.
  unfold str_join, joined_errors. destruct errors as [|e rest]; [done|].
  revert e. induction rest as [|e' rest IH]; intros e.
  - simpl. by rewrite append_empty_r.
  - change (String.concat "; " (e :: e' :: rest))
      with (e +:+ "; " +:+ String.concat "; " (e' :: rest)).
    by rewrite IH.
Qed.

(** X4. When the scan service reports a failure, the census request
    raises the 500 error "Network scan failed: " followed by the error
    texts joined by "; " (the first text, then each further one behind a
    "; "), or by a fixed text when the joined text is empty, so that a
    reason is always given; the devices of the failed scan are not looked
    at and the cache is the one of before. *)
Theorem census_scan_failure env timeout client_ip bbmd_ip w :
  ScanResult.success (scan_network env BACNET timeout client_ip bbmd_ip) = false ->
  exists reason w',
    discover_census env timeout client_ip bbmd_ip w
    = (Raise (HTTPException HTTP_500_INTERNAL_SERVER_ERROR
                ("Network scan failed: " +:+ reason)), w')
    /\ reason <> EmptyString
    /\ (ScanResult.errors (scan_network env BACNET timeout client_ip bbmd_ip) = [] ->
        reason = "Unknown BACnet scan failure")
    /\ (forall e, ScanResult.errors (scan_network env BACNET timeout client_ip bbmd_ip)
                  = [e] -> e <> EmptyString -> reason = e)
    /\ _last_device_uids_by_id w' = _last_device_uids_by_id w
    /\ reason
       = match joined_errors
                 (ScanResult.errors (scan_network env BACNET timeout client_ip bbmd_ip))
         with
         | EmptyString => "Unknown BACnet scan failure"
         | joined => joined
         end
    /\ (forall e1 e2,
          ScanResult.errors (scan_network env BACNET timeout client_ip bbmd_ip)
          = [e1; e2] ->
          reason = e1 +:+ "; " +:+ e2)
    /\ (forall e1 e2 e3,
          ScanResult.errors (scan_network env BACNET timeout client_ip bbmd_ip)
          = [e1; e2; e3] ->
          reason = e1 +:+ "; " +:+ e2 +:+ "; " +:+ e3).
Proof.
  intros Hfailed. rewrite discover_census_run. cbv zeta. rewrite Hfailed.
  rewrite str_join_joined.
  do 2 eexists. split; [reflexivity|].
  split; [by apply str_or_not_empty|].
  split; [by intros ->|].
  split; [intros e -> He; simpl; rewrite append_empty_r; by destruct e|].
  split; [done|].
  split; [unfold str_or; by destruct (joined_errors _)|].
  split.
  - intros e1 e2 ->. simpl. rewrite append_empty_r. by destruct e1.
  - intros e1 e2 e3 ->. simpl. rewrite append_empty_r. by destruct e1.
Qed.

(** X5. Every census request calls the scan service exactly once, with
    the timeout and the addresses of the caller, after logging its start;
    it logs the number of devices of the scan when, and only when, it
    succeeds. *)
Theorem census_calls_scan_once env timeout client_ip bbmd_ip w :
  events (snd (discover_census env timeout client_ip bbmd_ip w))
  = events w
    ++ [Log "Starting network discovery (timeout=%ss)" [VInt timeout];
        CallScanNetwork timeout client_ip bbmd_ip]
    ++ match fst (discover_census env timeout client_ip bbmd_ip w) with
       | Ok _ =>
           [Log "Network discovery complete: %s devices found"
              [VInt (Z.of_nat
                       (length (ScanResult.data
                                  (scan_network env BACNET timeout client_ip bbmd_ip))))]]
       | Raise _ => []
       end.
Proof.
  rewrite discover_census_run. cbv zeta.
  destruct (ScanResult.success _); simpl; [|done].
  destruct (census_loop _ _ _) as [[census uid_map]|e] eqn:Hloop; simpl;
    [|done].
  apply census_loop_ok in Hloop as (es & Hall & -> & _).
  apply Forall2_length in Hall. simpl. rewrite Hall.
  by rewrite <- app_assoc.
Qed.

Lemma census_entries_have_uid env timeout client_ip bbmd_ip w census w' :
  discover_census env timeout client_ip bbmd_ip w = (Ok census, w') ->
  Forall2 (fun d e => _device_to_census d = Ok e)
    (ScanResult.data (scan_network env BACNET timeout client_ip bbmd_ip)) census.
Proof.
  rewrite discover_census_run. cbv zeta.
  destruct (ScanResult.success _); [|done].
  destruct (census_loop _ _ _) as [[census0 uid_map]|e0] eqn:Hloop; [|done].
  intros Hrun; inversion Hrun; subst.
  by apply census_loop_ok in Hloop as (es & Hall & -> & _).
Qed.

Lemma fold_enter_dom es : forall m : gmap Z string,
  Forall (fun e => is_Some (DeviceCensusEntry.device_uid e)) es ->
  dom (fold_left enter es m)
  = list_to_set (map DeviceCensusEntry.device_id es) ∪ dom m.
Proof.
  induction es as [|e es IH]; intros m Hall; simpl.
  - by rewrite (left_id_L ∅ (∪)).
  - inversion Hall as [|? ? [u Hu] Hrest]; subst.
    rewrite IH by done. unfold enter. rewrite Hu, dom_insert_L.
    rewrite (assoc_L (∪)). f_equal. apply (comm_L (∪)).
Qed.

Lemma census_cache_dom env timeout client_ip bbmd_ip w census w' :
  discover_census env timeout client_ip bbmd_ip w = (Ok census, w') ->
  dom (_last_device_uids_by_id w')
  = list_to_set (map DeviceCensusEntry.device_id census).
Proof.
  intros Hrun.
  pose proof (census_entries_have_uid _ _ _ _ _ _ _ Hrun) as Hall.
  rewrite (census_cache_after _ _ _ _ _ _ _ Hrun). unfold census_uid_map.
  rewrite fold_enter_dom, dom_empty_L, (right_id_L ∅ (∪)); [done|].
  clear -Hall. induction Hall as [|d e ds es Hd _ IH]; constructor; [|done].
  rewrite (device_to_census_uid d e Hd). eauto.
Qed.

Lemma size_list_to_set_le (l : list Z) :
  (size (list_to_set l : gset Z) <= length l)%nat.
Proof.
  induction l as [|x l IH].
  - by rewrite list_to_set_nil, size_empty.
  - rewrite list_to_set_cons. simpl length.
    destruct (decide (x ∈ (list_to_set l : gset Z))) as [Hin|Hnotin].
    + rewrite (subseteq_union_1_L {[x]} (list_to_set l)); [lia|].
      by apply singleton_subseteq_l.
    + rewrite size_union by (by apply disjoint_singleton_l).
      rewrite size_singleton. lia.
Qed.

(** X6. After a successful census the identifiers the cache knows are
    those of the returned entries: the cache never holds more identifiers
    than the census has entries, and holds as many when the identifiers
    of the entries are distinct. *)
Theorem census_cache_domain env timeout client_ip bbmd_ip w census w' :
  discover_census env timeout client_ip bbmd_ip w = (Ok census, w') ->
  (forall k, is_Some (_last_device_uids_by_id w' !! k)
             <-> k ∈ map DeviceCensusEntry.device_id census)
  /\ (size (_last_device_uids_by_id w') <= length census)%nat
  /\ (NoDup (map DeviceCensusEntry.device_id census) ->
      size (_last_device_uids_by_id w') = length census).
Proof.
  intros Hrun. pose proof (census_cache_dom _ _ _ _ _ _ _ Hrun) as Hdom.
  split; [|split].
  - intros k. rewrite <- elem_of_dom, Hdom. apply elem_of_list_to_set.
  - rewrite <- size_dom, Hdom.
    etrans; [apply size_list_to_set_le|]. by rewrite length_map.
  - intros Hnodup. rewrite <- size_dom, Hdom, size_list_to_set by done.
    by rewrite length_map.
Qed.

(** X7. The answer of a census request, and the cache a successful one
    leaves, depend on the scan alone, not on the world the request
    started in. *)
Theorem census_ignores_prior_state env timeout client_ip bbmd_ip w1 w2 :
  fst (discover_census env timeout client_ip bbmd_ip w1)
  = fst (discover_census env timeout client_ip bbmd_ip w2)
  /\ (forall census,
        fst (discover_census env timeout client_ip bbmd_ip w1) = Ok census ->
        _last_device_uids_by_id (snd (discover_census env timeout client_ip bbmd_ip w1))
        = _last_device_uids_by_id
            (snd (discover_census env timeout client_ip bbmd_ip w2))).
Proof.
  rewrite !discover_census_run. cbv zeta.
  destruct (ScanResult.success _); simpl; [|done].
  by destruct (census_loop _ _ _) as [[census uid_map]|e].
Qed.

End MoreCensus.

Lemma device_to_census_failure_witness :
  exists rest,
    Exn ValueError "Device Z has non-integer protocol_ref.device_id='abc'"
    = Exn ValueError
        ("Device " +:+ Device.uid (demo_device "Z" (Some (IdStr "abc"))) +:+ rest).
Proof.
  apply (proj2 (device_to_census_failure (H := demo_runtime)
                  (demo_device "Z" (Some (IdStr "abc"))))).
  reflexivity.
Defined.

Lemma text_identifier_as_integer_witness :
  _device_to_census (H := demo_runtime) (demo_device "Y" (Some (IdStr "7")))
  = Ok (demo_entry "Y" 7).
Proof.
  apply (text_identifier_as_integer (H := demo_runtime)
           "Y" None None [] "192.168.1.10" "7" 7).
  reflexivity.
Defined.

Lemma census_scan_failure_witness :
  exists w',
    discover_census (H := demo_runtime) demo_failed_env 60 None None demo_world_X
    = (Raise (HTTPException HTTP_500_INTERNAL_SERVER_ERROR
                "Network scan failed: timeout; no route"), w')
    /\ _last_device_uids_by_id w' = _last_device_uids_by_id demo_world_X.
Proof.
  destruct (census_scan_failure (H := demo_runtime) demo_failed_env 60 None None
              demo_world_X eq_refl)
    as (reason & w' & Hrun & _ & _ & _ & Hcache & _ & Htwo & _).
  exists w'. split; [|exact Hcache].
  rewrite Hrun, (Htwo "timeout" "no route" eq_refl). reflexivity.
Defined.

Lemma census_cache_domain_witness :
  (size (_last_device_uids_by_id demo_world_three) <= 3)%nat.
Proof.
  refine (proj1 (proj2 (census_cache_domain (H := demo_runtime)
                          (demo_env demo_three_devices) 60 None None demo_world_X
                          [demo_entry "A" 5; demo_entry "B" 5; demo_entry "C" 9]
                          demo_world_three _))).
  vm_compute; reflexivity.
Defined.

(** ** The object scan *)

Section Objects.
Context `{PyRuntime}.

Lemma discover_device_objects_run env device_id client_ip bbmd_ip rpm w :
  discover_device_objects env device_id client_ip bbmd_ip rpm w =
    match _last_device_uids_by_id w !! device_id with
    | None =>
        (Raise (HTTPException HTTP_404_NOT_FOUND
                  ("Device " +:+ pretty device_id
                     +:+ " not found in last census. Run GET /discover first.")),
         w)
    | Some uid =>
        let result := discover_objects env uid client_ip bbmd_ip rpm in
        (if ObjectsResult.success result then
           Ok (GraphResponse.from_graph (objects_result_to_graph env result))
         else
           Raise (HTTPException HTTP_500_INTERNAL_SERVER_ERROR
                    ("Failed to scan device " +:+ pretty device_id +:+ ": "
                       +:+ str_or (str_join "; " (ObjectsResult.errors result))
                             "Unknown BACnet object discovery failure")),
         World (_last_device_uids_by_id w)
           (events w ++
              [Log "Starting object scan for device_id=%s uid=%s"
                 [VInt device_id; VStr uid];
               CallDiscoverObjects uid client_ip bbmd_ip rpm]))
    end.
Proof.
  unfold discover_device_objects, cache_get, logger_info, emit, raise,
    mbind, mret, M_bind, M_ret.
  destruct (_last_device_uids_by_id w !! device_id) as [uid|]; [|done].
  simpl. rewrite <- app_assoc. simpl.
  by destruct (ObjectsResult.success _).
Qed.

(** X8. A request for the objects of a device answers 404, and leaves
    the world as it was, exactly when the cache does not know the
    identifier.  When the cache knows it, the object-discovery service is
    called once, with the cached handle and the addresses and batch size
    of the caller; its success gives the encoded graph of its result, its
    failure the 500 error "Failed to scan device ..." with a reason that
    is never empty. *)
Theorem objects_scan_outcome env device_id client_ip bbmd_ip rpm w :
  (_last_device_uids_by_id w !! device_id = None <->
   exists detail,
     discover_device_objects env device_id client_ip bbmd_ip rpm w
     = (Raise (HTTPException HTTP_404_NOT_FOUND detail), w))
  /\ (forall uid,
        _last_device_uids_by_id w !! device_id = Some uid ->
        events (snd (discover_device_objects env device_id client_ip bbmd_ip rpm w))
        = events w ++
            [Log "Starting object scan for device_id=%s uid=%s"
               [VInt device_id; VStr uid];
             CallDiscoverObjects uid client_ip bbmd_ip rpm]
        /\ (ObjectsResult.success (discover_objects env uid client_ip bbmd_ip rpm)
            = true ->
            fst (discover_device_objects env device_id client_ip bbmd_ip rpm w)
            = Ok (GraphResponse.from_graph
                    (objects_result_to_graph env
                       (discover_objects env uid client_ip bbmd_ip rpm))))
        /\ (ObjectsResult.success (discover_objects env uid client_ip bbmd_ip rpm)
            = false ->
            exists reason,
              reason <> EmptyString
              /\ fst (discover_device_objects env device_id client_ip bbmd_ip rpm w)
                 = Raise (HTTPException HTTP_500_INTERNAL_SERVER_ERROR
                            ("Failed to scan device " +:+ pretty device_id +:+ ": "
                               +:+ reason)))).
Proof.
  rewrite discover_device_objects_run.
  destruct (_last_device_uids_by_id w !! device_id) as [uid0|] eqn:Hget.
  - cbv zeta. split.
    + split; [done|]. intros [detail Hrun].
      by destruct (ObjectsResult.success _).
    + intros uid Huid. inversion Huid; subst. simpl.
      split; [done|]. split.
      * by intros ->.
      * intros ->. eexists. split; [|reflexivity].
        by apply str_or_not_empty.
  - split; [|done]. split; eauto.
Qed.

Lemma census_lookup_last env timeout client_ip bbmd_ip w census w' before d after e :
  discover_census env timeout client_ip bbmd_ip w = (Ok census, w') ->
  ScanResult.data (scan_network env BACNET timeout client_ip bbmd_ip)
  = before ++ d :: after ->
  _device_to_census d = Ok e ->
  Forall (fun d' => forall e', _device_to_census d' = Ok e' ->
            DeviceCensusEntry.device_id e' <> DeviceCensusEntry.device_id e)
    after ->
  _last_device_uids_by_id w' !! DeviceCensusEntry.device_id e = Some (Device.uid d).
Proof.
  intros Hrun Hdata Hd Hafter.
  pose proof (census_entries_have_uid _ _ _ _ _ _ _ Hrun) as Hall.
  rewrite (census_cache_after _ _ _ _ _ _ _ Hrun). unfold census_uid_map.
  rewrite Hdata in Hall.
  apply Forall2_app_inv_l in Hall as (es1 & es2' & Hall1 & Hall2 & ->).
  inversion Hall2 as [|? e' ? es2 Hd' Hall3]; subst.
  assert (e' = e) as -> by congruence.
  rewrite fold_left_app. simpl.
  apply fold_enter_last; [done|by eapply device_to_census_uid|].
  clear -Hall3 Hafter.
  induction Hall3 as [|d' e' after es2 Hd' _ IH]; [constructor|].
  inversion Hafter; subst. constructor; auto.
Qed.

(** X9. The two steps together: after a successful census, a request
    for the objects of an identifier of the census reaches the
    object-discovery service with the handle of the last device of the
    scan that has this identifier, whatever the cache held before the
    census. *)
Theorem census_then_objects
    env timeout client_ip bbmd_ip w census w' before d after e
    env' client_ip' bbmd_ip' rpm :
  discover_census env timeout client_ip bbmd_ip w = (Ok census, w') ->
  ScanResult.data (scan_network env BACNET timeout client_ip bbmd_ip)
  = before ++ d :: after ->
  _device_to_census d = Ok e ->
  Forall (fun d' => forall e', _device_to_census d' = Ok e' ->
            DeviceCensusEntry.device_id e' <> DeviceCensusEntry.device_id e)
    after ->
  events (snd (discover_device_objects env' (DeviceCensusEntry.device_id e)
                 client_ip' bbmd_ip' rpm w'))
  = events w' ++
      [Log "Starting object scan for device_id=%s uid=%s"
         [VInt (DeviceCensusEntry.device_id e); VStr (Device.uid d)];
       CallDiscoverObjects (Device.uid d) client_ip' bbmd_ip' rpm].
Proof.
  intros Hrun Hdata Hd Hafter.
  rewrite discover_device_objects_run.
  by rewrite (census_lookup_last _ _ _ _ _ _ _ _ _ _ _ Hrun Hdata Hd Hafter).
Qed.

(** X10. A census forgets what it does not find: after a successful
    census, a request for the objects of an identifier that no returned
    entry has answers 404 without reaching the service, also when the
    identifier was in the cache before. *)
Theorem census_forgets_absent env timeout client_ip bbmd_ip w census w'
    env' k client_ip' bbmd_ip' rpm :
  discover_census env timeout client_ip bbmd_ip w = (Ok census, w') ->
  k ∉ map DeviceCensusEntry.device_id census ->
  discover_device_objects env' k client_ip' bbmd_ip' rpm w'
  = (Raise (HTTPException HTTP_404_NOT_FOUND
              ("Device " +:+ pretty k
                 +:+ " not found in last census. Run GET /discover first.")),
     w').
Proof.
  intros Hrun Habsent. rewrite discover_device_objects_run.
  destruct (_last_device_uids_by_id w' !! k) as [uid|] eqn:Hget; [|done].
  exfalso. apply Habsent.
  apply (elem_of_list_to_set (C := gset Z)).
  rewrite <- (census_cache_dom _ _ _ _ _ _ _ Hrun).
  apply elem_of_dom. eauto.
Qed.

End Objects.

Lemma objects_scan_outcome_witness :
  fst (discover_device_objects (demo_env []) 5 None None 10 demo_world_X)
  = Ok (GraphResponse.from_graph empty_graph).
Proof.
  refine (proj1 (proj2 (proj2 (objects_scan_outcome (demo_env []) 5 None None 10
                                 demo_world_X) "X" _)) _);
    reflexivity.
Defined.

Lemma census_then_objects_witness :
  events (snd (discover_device_objects (demo_env []) 5 None None 10 demo_world_three))
  = events demo_world_three ++
      [Log "Starting object scan for device_id=%s uid=%s" [VInt 5; VStr "B"];
       CallDiscoverObjects "B" None None 10].
Proof.
  refine (census_then_objects (H := demo_runtime)
            (demo_env demo_three_devices) 60 None None demo_world_X
            [demo_entry "A" 5; demo_entry "B" 5; demo_entry "C" 9] demo_world_three
            [demo_device "A" (Some (IdInt 5))] (demo_device "B" (Some (IdStr "5")))
            [demo_device "C" (Some (IdInt 9))] (demo_entry "B" 5)
            (demo_env []) None None 10 _ _ _ _);
    try (vm_compute; reflexivity).
  constructor; [|constructor].
  intros e' He'. vm_compute in He'. inversion He'. simpl. discriminate.
Defined.

Lemma census_forgets_absent_witness :
  discover_device_objects (demo_env []) 5 None None 10 demo_world_Y
  = (Raise (HTTPException HTTP_404_NOT_FOUND
              ("Device " +:+ pretty 5
                 +:+ " not found in last census. Run GET /discover first.")),
     demo_world_Y).
Proof.
  refine (census_forgets_absent (H := demo_runtime)
            (demo_env [demo_device "Y" (Some (IdStr "7"))]) 60 None None
            demo_world_X [demo_entry "Y" 7] demo_world_Y
            (demo_env []) 5 None None 10 _ _).
  - vm_compute; reflexivity.
  - simpl. intros Hin. apply elem_of_cons in Hin as [Heq|Hin]; [discriminate|].
    by apply elem_of_nil in Hin.
Defined.

(** ** The cache and the other endpoints *)

Section CacheOwners.
Context `{PyRuntime}.

(** X11. The census is the only writer of the cache: a request for the
    objects of a device, a classify request, an enhance request and an
    ontology fetch leave it as they found it, whatever their outcome. *)
Theorem only_census_writes_cache env ontologies w :
  (forall device_id client_ip bbmd_ip rpm,
      _last_device_uids_by_id
        (snd (discover_device_objects env device_id client_ip bbmd_ip rpm w))
      = _last_device_uids_by_id w)
  /\ (forall body,
        _last_device_uids_by_id (snd (classify_graph_endpoint env ontologies body w))
        = _last_device_uids_by_id w)
  /\ (forall body,
        _last_device_uids_by_id (snd (enhance_graph_endpoint env body w))
        = _last_device_uids_by_id w)
  /\ (forall ontology_id,
        _last_device_uids_by_id (snd (get_ontology env ontologies ontology_id w))
        = _last_device_uids_by_id w).
Proof.
  split; [|split; [|split]]; intros.
  - eapply discover_device_objects_keeps_cache, surjective_pairing.
  - eapply classify_graph_endpoint_keeps_cache, surjective_pairing.
  - eapply enhance_graph_endpoint_keeps_cache, surjective_pairing.
  - eapply get_ontology_keeps_cache, surjective_pairing.
Qed.

End CacheOwners.

(** ** More on the classify request *)

Section MoreClassify.
Context `{PyRuntime}.

Lemma classify_graph_endpoint_run env ontologies body w :
  classify_graph_endpoint env ontologies body w =
    match classify_build ontologies body with
    | Raise e => (Raise e, w)
    | Ok (g, topo, opts) =>
        let result := classify_graph_sync env g topo opts in
        (if ClassifyResult.success result then
           Ok (ClassifyResponse.mk
                 (GraphResponse.from_graph (ClassifyResult.graph result)))
         else
           Raise (HTTPException HTTP_422_UNPROCESSABLE_ENTITY
                    (match ClassifyResult.errors result with
                     | first :: _ => first
                     | [] => "Classification failed"
                     end)),
         World (_last_device_uids_by_id w) (events w ++ [CallClassify g topo opts]))
    end.
Proof.
  unfold classify_graph_endpoint, lift, emit, raise, mbind, mret, M_bind, M_ret.
  destruct (classify_build _ _) as [[[g topo] opts]|e]; [|done].
  simpl. by destruct (ClassifyResult.success _).
Qed.

(** X12. Once a classify request has built, the classification service
    is given the decoded graph of the request.  Its rejection becomes the
    422 error carrying its first error text, or "Classification failed"
    when it gives none; its success becomes a response that decodes to
    the graph of its answer, and is the graph of the request itself when
    the service returns the graph it was given. *)
Theorem classify_outcome env ontologies body w g topo opts :
  classify_build ontologies body = Ok (g, topo, opts) ->
  g = GraphResponse.to_graph (ClassifyRequest.graph body)
  /\ (ClassifyResult.success (classify_graph_sync env g topo opts) = false ->
      fst (classify_graph_endpoint env ontologies body w)
      = Raise (HTTPException HTTP_422_UNPROCESSABLE_ENTITY
                 (match ClassifyResult.errors (classify_graph_sync env g topo opts) with
                  | first :: _ => first
                  | [] => "Classification failed"
                  end)))
  /\ (ClassifyResult.success (classify_graph_sync env g topo opts) = true ->
      exists response,
        fst (classify_graph_endpoint env ontologies body w) = Ok response
        /\ GraphResponse.to_graph (ClassifyResponse.graph response)
           = ClassifyResult.graph (classify_graph_sync env g topo opts)
        /\ (ClassifyResult.graph (classify_graph_sync env g topo opts) = g ->
            ClassifyResponse.graph response = ClassifyRequest.graph body)).
Proof.
  intros Hbuild. rewrite classify_graph_endpoint_run, Hbuild. cbv zeta.
  assert (Hg : g = GraphResponse.to_graph (ClassifyRequest.graph body)).
  { rewrite classify_build_eq in Hbuild. cbv zeta in Hbuild.
    destruct (py_float _); [by inversion Hbuild|by destruct (caught_by _ _)]. }
  split; [done|]. split.
  - by intros ->.
  - intros ->. eexists. split; [reflexivity|]. simpl.
    split; [apply to_graph_from_graph|].
    intros ->. rewrite Hg. apply from_graph_to_graph.
Qed.

(** X13. The registry lookup of a classify request touches the url of
    the topology and nothing else, and it changes the url only for a text
    id that the registry knows with a non-empty url, in a topology whose
    url and content both read as false; the url is then the one of the
    registry. *)
Theorem topology_resolution_scope ontologies topology :
  (forall k, k <> "url" ->
     classify_topology_payload ontologies topology !! k = topology !! k)
  /\ (classify_topology_payload ontologies topology !! "url" <> topology !! "url" ->
      exists topology_id known u,
        topology !! "id" = Some (VStr topology_id)
        /\ ontologies !! topology_id = Some known
        /\ OntologyInfo.url known = Some u
        /\ u <> EmptyString
        /\ get_truthy topology "url" = false
        /\ get_truthy topology "content" = false
        /\ classify_topology_payload ontologies topology !! "url" = Some (VStr u)).
Proof.
  unfold classify_topology_payload, py_dict, dict_get, known_url.
  destruct (topology !! "id") as [[| | | |topology_id| |]|] eqn:Hid; simpl;
    try (split; [done|intros Hne; by destruct Hne]).
  destruct (get_truthy topology "url") eqn:Hurl; simpl;
    [split; [done|intros Hne; by destruct Hne]|].
  destruct (get_truthy topology "content") eqn:Hcontent; simpl;
    [split; [done|intros Hne; by destruct Hne]|].
  destruct (ontologies !! topology_id) as [known|] eqn:Hknown;
    [|split; [done|intros Hne; by destruct Hne]].
  destruct (OntologyInfo.url known) as [u|] eqn:Hu;
    [|split; [done|intros Hne; by destruct Hne]].
  destruct u as [|c rest]; simpl;
    [split; [done|intros Hne; by destruct Hne]|].
  split.
  - intros k Hk. by rewrite lookup_insert_ne.
  - intros _. exists topology_id, known, (String c rest).
    rewrite lookup_insert_eq. done.
Qed.

Lemma py_float_raises v e :
  py_float v = Raise e ->
  (exists msg, e = Exn ValueError msg) \/ (exists msg, e = Exn TypeError msg)
  \/ e = Exn OverflowError "int too large to convert to float".
Proof.
  assert (Hint : forall z, float_of_int z = Raise e ->
                   e = Exn OverflowError "int too large to convert to float").
  { intros z. unfold float_of_int.
    destruct (binary_normalize _ _ _ _ _); intros Hz; by inversion Hz. }
  destruct v as [|b|z|f|s|l|d]; simpl; intros Hv.
  - inversion Hv. right; left. eexists; reflexivity.
  - right; right. exact (Hint _ Hv).
  - right; right. exact (Hint _ Hv).
  - discriminate.
  - destruct (float_of_str s); inversion Hv. left. eexists; reflexivity.
  - inversion Hv. right; left. eexists; reflexivity.
  - inversion Hv. right; left. eexists; reflexivity.
Qed.

(** X14. A classify request that does not build never reaches the
    classification service and records nothing.  It fails either with the
    400 error "Invalid classify request: ...", or, for a [min_confidence]
    that is an integer too large for a float, with the [OverflowError] of
    the interpreter, which no handler of the endpoint turns into a 400. *)
Theorem classify_failures env ontologies body w e :
  classify_build ontologies body = Raise e ->
  classify_graph_endpoint env ontologies body w = (Raise e, w)
  /\ ((exists detail,
         e = HTTPException HTTP_400_BAD_REQUEST
               ("Invalid classify request: " +:+ detail))
      \/ e = Exn OverflowError "int too large to convert to float").
Proof.
  intros Hbuild. split.
  - by rewrite classify_graph_endpoint_run, Hbuild.
  - rewrite classify_build_eq in Hbuild. cbv zeta in Hbuild.
    destruct (py_float _) as [f|e0] eqn:Hfloat; [done|].
    apply py_float_raises in Hfloat as [[msg ->]|[[msg ->]| ->]];
      simpl in Hbuild; inversion Hbuild; eauto.
Qed.

End MoreClassify.

Lemma classify_outcome_witness :
  exists response,
    fst (classify_graph_endpoint (H := demo_runtime) (demo_env []) _ONTOLOGIES
           (demo_classify_body {[ "id" := VStr "brick_v1.4.4" ]} ∅) initial_world)
    = Ok response
    /\ GraphResponse.to_graph (ClassifyResponse.graph response)
       = ClassifyResult.graph
           (classify_graph_sync (demo_env []) empty_graph demo_topology
              demo_classifier_options)
    /\ (ClassifyResult.graph
          (classify_graph_sync (demo_env []) empty_graph demo_topology
             demo_classifier_options) = empty_graph ->
        ClassifyResponse.graph response
        = ClassifyRequest.graph
            (demo_classify_body {[ "id" := VStr "brick_v1.4.4" ]} ∅)).
Proof.
  refine (proj2 (proj2 (classify_outcome (H := demo_runtime) (demo_env [])
                          _ONTOLOGIES
                          (demo_classify_body {[ "id" := VStr "brick_v1.4.4" ]} ∅)
                          initial_world empty_graph demo_topology
                          demo_classifier_options _)) _);
    vm_compute; reflexivity.
Defined.

Lemma topology_resolution_scope_witness :
  classify_topology_payload _ONTOLOGIES
    {[ "id" := VStr "brick_v1.4.4"; "format" := VStr "jsonld" ]} !! "format"
  = ({[ "id" := VStr "brick_v1.4.4"; "format" := VStr "jsonld" ]} : dict) !! "format".
Proof.
  apply (proj1 (topology_resolution_scope _ONTOLOGIES
                  {[ "id" := VStr "brick_v1.4.4"; "format" := VStr "jsonld" ]})).
  discriminate.
Defined.

Lemma classify_failures_witness :
  classify_graph_endpoint (H := demo_runtime) (demo_env []) _ONTOLOGIES
    (demo_classify_body ∅ {[ "min_confidence" := VInt (10 ^ 400) ]}) demo_world_X
  = (Raise (Exn OverflowError "int too large to convert to float"), demo_world_X).
Proof.
  refine (proj1 (classify_failures (H := demo_runtime) (demo_env []) _ONTOLOGIES
                   (demo_classify_body ∅ {[ "min_confidence" := VInt (10 ^ 400) ]})
                   demo_world_X _ _)).
  vm_compute; reflexivity.
Defined.

(** ** More on the enhance request *)

Section MoreEnhance.
Context `{PyRuntime}.

Lemma enhance_graph_endpoint_run env body w :
  enhance_graph_endpoint env body w =
    match enhance_build body w with
    | (Raise e, w1) => (Raise e, w1)
    | (Ok (g, o), w1) =>
        let result := enhance_graph_sync env g o in
        (Ok (EnhanceResponse.mk
               (GraphResponse.from_graph (EnhanceResult.graph result))
               (map to_EnhancementResponse (EnhanceResult.enhancements result))
               (EnhanceResult.success result)
               (EnhanceResult.errors result)
               (default 0 (EnhanceResult.metadata result !! "nodes_evaluated"))
               (default 0 (EnhanceResult.metadata result !! "nodes_enhanced"))),
         World (_last_device_uids_by_id w1)
           (events w1 ++
              [CallEnhance g o;
               Log "Enhance result: success=%s, enhancements=%d, applied=%d, errors=%s"
                 [VBool (EnhanceResult.success result);
                  VInt (Z.of_nat (length (EnhanceResult.enhancements result)));
                  VInt (Z.of_nat
                          (length (filter (fun e => Enhancement.applied e = true)
                                     (EnhanceResult.enhancements result))));
                  match EnhanceResult.errors result with
                  | [] => VStr "none"
                  | errs => VList (map VStr errs)
                  end]]))
    end.
Proof.
  unfold enhance_graph_endpoint, logger_info, emit, mbind, mret, M_bind, M_ret.
  destruct (enhance_build body w) as [[[g o]|e] w1]; [|done].
  simpl. by rewrite <- app_assoc.
Qed.

Lemma py_int_raises v e :
  py_int v = Raise e ->
  (exists msg, e = Exn ValueError msg) \/ (exists msg, e = Exn TypeError msg)
  \/ (exists msg, e = Exn OverflowError msg).
Proof.
  destruct v as [|b|z|f|s|l|d]; simpl; intros Hv.
  - inversion Hv. right; left. eexists; reflexivity.
  - discriminate.
  - discriminate.
  - destruct f; simpl in Hv; inversion Hv.
    + right; right. eexists; reflexivity.
    + left. eexists; reflexivity.
  - destruct (int_of_str s); inversion Hv. left. eexists; reflexivity.
  - inversion Hv. right; left. eexists; reflexivity.
  - inversion Hv. right; left. eexists; reflexivity.
Qed.

Lemma below_threshold_raises threshold n e :
  below_threshold threshold n = Raise e ->
  exists ty,
    e = Exn TypeError
          ("'<' not supported between instances of '" +:+ ty +:+ "' and 'float'").
Proof.
  unfold below_threshold, py_lt_float.
  destruct (dict_get_default _ _ _); intros He; inversion He; eauto.
Qed.

Lemma below_threshold_ok threshold n :
  (exists b, below_threshold threshold n = Ok b)
  <-> (forall v, Node.attrs n !! "class_confidence" = Some v -> ~ not_a_number v).
Proof.
  unfold below_threshold, py_lt_float, dict_get_default.
  destruct (Node.attrs n !! "class_confidence") as [v|]; simpl.
  - split.
    + intros [b Hb] v' Hv'. inversion Hv'; subst.
      destruct v'; simpl in *; try discriminate; tauto.
    + intros Hnum. specialize (Hnum v eq_refl).
      destruct v; simpl in Hnum; eauto; tauto.
  - split; [done|eauto].
Qed.

Lemma filter_r_raises {A} (p : A -> result bool) xs e :
  filter_r p xs = Raise e -> exists x, x ∈ xs /\ p x = Raise e.
Proof.
  induction xs as [|x xs IH]; simpl; [done|].
  destruct (p x) as [b|e0] eqn:Hx; simpl.
  - destruct (filter_r p xs) as [kept|e1]; simpl; [done|].
    intros He; inversion He; subst.
    destruct IH as (x' & Hin & Hx'); [done|].
    exists x'. split; [by apply elem_of_cons; right|done].
  - intros He; inversion He; subst. exists x. split; [by apply elem_of_cons; left|done].
Qed.

Lemma filter_r_ok {A} (p : A -> result bool) xs :
  (exists kept, filter_r p xs = Ok kept) <-> Forall (fun x => exists b, p x = Ok b) xs.
Proof.
  induction xs as [|x xs IH]; simpl.
  - split; [constructor|eauto].
  - split.
    + intros [kept Hkept]. destruct (p x) as [b|] eqn:Hx; [|done].
      simpl in Hkept. destruct (filter_r p xs) as [kept'|]; [|done].
      constructor; [eauto|]. apply IH. eauto.
    + intros Hall. inversion Hall as [|? ? [b Hb] Hrest]; subst.
      apply IH in Hrest as [kept Hkept]. rewrite Hb, Hkept. simpl. eauto.
Qed.

Lemma filter_r_length {A} (p : A -> result bool) xs kept :
  filter_r p xs = Ok kept -> (length kept <= length xs)%nat.
Proof.
  revert kept. induction xs as [|x xs IH]; simpl; intros kept Hkept.
  - inversion Hkept. done.
  - destruct (p x) as [b|]; [|done]. simpl in Hkept.
    destruct (filter_r p xs) as [kept'|]; [|done]. simpl in Hkept.
    specialize (IH kept' eq_refl).
    inversion Hkept; subst. destruct b; simpl; lia.
Qed.

(** X15. An enhance request that does not build never reaches the
    enhancement service and records nothing.  It fails either with the 400
    error "Invalid enhance request: ...", or with an [OverflowError] of the
    interpreter (an integer threshold too large for a float, an infinite
    batch size), which no handler of the endpoint turns into a 400. *)
Theorem enhance_failures env body w e w' :
  enhance_build body w = (Raise e, w') ->
  w' = w
  /\ enhance_graph_endpoint env body w = (Raise e, w)
  /\ ((exists detail,
         e = HTTPException HTTP_400_BAD_REQUEST
               ("Invalid enhance request: " +:+ detail))
      \/ exists msg, e = Exn OverflowError msg).
Proof.
  intros Hbuild.
  assert (Hw : w' = w /\
               ((exists detail,
                   e = HTTPException HTTP_400_BAD_REQUEST
                         ("Invalid enhance request: " +:+ detail))
                \/ exists msg, e = Exn OverflowError msg)).
  { rewrite enhance_build_eq in Hbuild. cbv zeta in Hbuild.
    destruct (enhance_llm_options _) as [o|e0] eqn:Hopts.
    - destruct (filter_r _ _) as [low|e0] eqn:Hlow; [done|].
      apply filter_r_raises in Hlow as (n & _ & Hn).
      apply below_threshold_raises in Hn as [ty ->].
      simpl in Hbuild. inversion Hbuild; subst. eauto.
    - rewrite enhance_llm_options_eq in Hopts.
      destruct (py_float _) as [f|e1] eqn:Hfloat.
      + destruct (py_int _) as [b|e1] eqn:Hint; [done|].
        inversion Hopts; subst.
        apply py_int_raises in Hint as [[msg ->]|[[msg ->]|[msg ->]]];
          simpl in Hbuild; inversion Hbuild; subst; eauto.
      + inversion Hopts; subst.
        apply py_float_raises in Hfloat as [[msg ->]|[[msg ->]| ->]];
          simpl in Hbuild; inversion Hbuild; subst; eauto. }
  destruct Hw as [-> Herr]. split; [done|]. split; [|done].
  by rewrite enhance_graph_endpoint_run, Hbuild.
Qed.

(** X16. The counts an enhance request logs decide whether it goes
    through.  With options that coerce, the request builds exactly when
    every node that has a class has a confidence that is a number, or
    none at all; a classified node whose confidence is a text, [None], a
    list or a mapping makes the request fail with the 400 error of the
    comparison, before the service is reached.  Nodes without a class are
    not looked at. *)
Theorem enhance_confidence_gates env body w o :
  enhance_llm_options (EnhanceRequest.options body) = Ok o ->
  let nodes := Graph.nodes (GraphResponse.to_graph (EnhanceRequest.graph body)) in
  let numeric n :=
    has_class n = true ->
    forall v, Node.attrs n !! "class_confidence" = Some v -> ~ not_a_number v in
  ((exists g w', enhance_build body w = (Ok (g, o), w')) <-> Forall numeric nodes)
  /\ (~ Forall numeric nodes ->
      exists ty,
        enhance_graph_endpoint env body w
        = (Raise (HTTPException HTTP_400_BAD_REQUEST
                    ("Invalid enhance request: "
                       +:+ "'<' not supported between instances of '"
                       +:+ ty +:+ "' and 'float'")), w)).
Proof.
  intros Hopts nodes numeric.
  pose proof (enhance_build_eq body w) as Hbuild. cbv zeta in Hbuild.
  rewrite Hopts in Hbuild. fold nodes in Hbuild.
  assert (Hiff : (exists low,
                    filter_r (below_threshold (LLMOptions.min_confidence_threshold o))
                      (filter (fun n => has_class n = true) nodes) = Ok low)
                 <-> Forall numeric nodes).
  { rewrite filter_r_ok, !Forall_forall. split.
    - intros Hall n Hin Hclass.
      apply (below_threshold_ok (LLMOptions.min_confidence_threshold o) n).
      apply Hall, list_elem_of_filter. done.
    - intros Hall n Hin. apply list_elem_of_filter in Hin as [Hclass Hin].
      apply below_threshold_ok. by apply Hall. }
  split.
  - rewrite <- Hiff. split.
    + intros (g & w' & Hok). rewrite Hbuild in Hok.
      destruct (filter_r _ _) as [low|e]; [eauto|by destruct (caught_by _ e)].
    + intros [low Hlow]. rewrite Hbuild, Hlow. eauto.
  - intros Hnot. rewrite enhance_graph_endpoint_run, Hbuild.
    destruct (filter_r _ _) as [low|e] eqn:Hlow.
    + destruct Hnot. apply Hiff. eauto.
    + apply filter_r_raises in Hlow as (n & _ & Hn).
      apply below_threshold_raises in Hn as [ty ->]. simpl. eauto.
Qed.

(** X17. The log record of a built enhance request carries the number
    of nodes of the request, the number of those that have a class, and
    the number of the latter whose confidence, 0 when there is none, is a
    number below the threshold of the built options; each count is at
    most the one before. *)
Theorem enhance_logged_counts body w g o w' :
  enhance_build body w = (Ok (g, o), w') ->
  (exists total classified low,
      events w'
      = events w ++
          [Log "Enhance request: %d nodes, %d classified, %d below threshold %.2f"
             [VInt (Z.of_nat total); VInt (Z.of_nat classified); VInt (Z.of_nat low);
              VFloat (LLMOptions.min_confidence_threshold o)]]
      /\ total = length (GraphResponse.nodes (EnhanceRequest.graph body))
      /\ (low <= classified <= total)%nat)
  /\ (valid_binary prec emax (LLMOptions.min_confidence_threshold o) = true ->
      Forall canonical_confidence (Graph.nodes g) ->
      g = GraphResponse.to_graph (EnhanceRequest.graph body)
      /\ events w'
         = events w ++
             [Log "Enhance request: %d nodes, %d classified, %d below threshold %.2f"
                [VInt (Z.of_nat (length (Graph.nodes g)));
                 VInt (Z.of_nat (length (filter classified (Graph.nodes g))));
                 VInt (Z.of_nat
                         (length
                            (filter
                               (confidence_below
                                  (xnumber_of_float
                                     (LLMOptions.min_confidence_threshold o)))
                               (filter classified (Graph.nodes g)))));
                 VFloat (LLMOptions.min_confidence_threshold o)]]).
Proof.
  intros Hbuild. rewrite enhance_build_eq in Hbuild. cbv zeta in Hbuild.
  destruct (enhance_llm_options _) as [o'|e]; [|by destruct (caught_by _ e)].
  destruct (filter_r _ _) as [low|e] eqn:Hlow; [|by destruct (caught_by _ e)].
  inversion Hbuild; subst; clear Hbuild. simpl. split.
  - do 3 eexists. split; [reflexivity|].
    split; [by rewrite length_map|].
    split; [by eapply filter_r_length|apply length_filter].
  - intros Hvalid Hcanon. split; [done|].
    apply low_confidence_exact in Hlow as [Hclassified ->]; [|done|done].
    simpl in Hclassified |- *. by rewrite Hclassified.
Qed.

(** X18. A built enhance request calls the enhancement service exactly
    once, with the decoded graph of the request and the built options,
    and then logs the success flag of the answer, the number of its
    enhancement records, the number of those that are applied, and its
    error texts, or "none" when it has no error. *)
Theorem enhance_calls_service_once env body w g o w1 :
  enhance_build body w = (Ok (g, o), w1) ->
  g = GraphResponse.to_graph (EnhanceRequest.graph body)
  /\ events (snd (enhance_graph_endpoint env body w))
     = events w1 ++
         [CallEnhance g o;
          Log "Enhance result: success=%s, enhancements=%d, applied=%d, errors=%s"
            [VBool (EnhanceResult.success (enhance_graph_sync env g o));
             VInt (Z.of_nat
                     (length (EnhanceResult.enhancements (enhance_graph_sync env g o))));
             VInt (Z.of_nat
                     (length
                        (filter (fun e => Enhancement.applied e = true)
                           (EnhanceResult.enhancements (enhance_graph_sync env g o)))));
             match EnhanceResult.errors (enhance_graph_sync env g o) with
             | [] => VStr "none"
             | errs => VList (map VStr errs)
             end]]
  /\ (length (filter (fun e => Enhancement.applied e = true)
                (EnhanceResult.enhancements (enhance_graph_sync env g o)))
      <= length (EnhanceResult.enhancements (enhance_graph_sync env g o)))%nat.
Proof.
  intros Hbuild. split.
  - rewrite enhance_build_eq in Hbuild. cbv zeta in Hbuild.
    destruct (enhance_llm_options _) as [o'|e]; [|by destruct (caught_by _ e)].
    destruct (filter_r _ _) as [low|e]; [|by destruct (caught_by _ e)].
    by inversion Hbuild.
  - rewrite enhance_graph_endpoint_run, Hbuild. cbv zeta. simpl.
    split; [reflexivity|]. apply length_filter.
Qed.

End MoreEnhance.

Lemma enhance_failures_witness :
  enhance_graph_endpoint (H := demo_runtime) (demo_env []) demo_enhance_body_batch
    initial_world
  = (Raise (HTTPException HTTP_400_BAD_REQUEST
              "Invalid enhance request: invalid literal for int() with base 10: 'many'"),
     initial_world).
Proof.
  refine (proj1 (proj2 (enhance_failures (H := demo_runtime) (demo_env [])
                          demo_enhance_body_batch initial_world _ initial_world _))).
  vm_compute; reflexivity.
Defined.

Lemma enhance_confidence_gates_witness :
  exists ty,
    enhance_graph_endpoint (H := demo_runtime) (demo_env []) demo_enhance_body_text
      initial_world
    = (Raise (HTTPException HTTP_400_BAD_REQUEST
                ("Invalid enhance request: "
                   +:+ "'<' not supported between instances of '"
                   +:+ ty +:+ "' and 'float'")), initial_world).
Proof.
  refine (proj2 (enhance_confidence_gates (H := demo_runtime) (demo_env [])
                   demo_enhance_body_text initial_world demo_llm_defaults _) _).
  - vm_compute; reflexivity.
  - intros Hall. inversion Hall as [|n1 ns1 _ Hrest]; subst.
    inversion Hrest as [|n2 ns2 Hn2 _]; subst.
    refine (Hn2 _ (VStr "high") _ I); vm_compute; reflexivity.
Defined.

Lemma enhance_logged_counts_witness :
  events demo_world_enhance_two
  = [Log "Enhance request: %d nodes, %d classified, %d below threshold %.2f"
       [VInt 3; VInt 2; VInt 2; VFloat (S754_finite false 4503599627370496 (-51))]].
Proof.
  assert (Hcanon : Forall canonical_confidence (Graph.nodes demo_graph)).
  { repeat constructor; intros f Hf; vm_compute in Hf; inversion Hf; reflexivity. }
  assert (Hrun : enhance_build (H := demo_runtime) demo_enhance_body_two initial_world
                 = (Ok (demo_graph, demo_llm_options_two), demo_world_enhance_two))
    by (vm_compute; reflexivity).
  pose proof (proj2 (proj2 (enhance_logged_counts (H := demo_runtime)
                demo_enhance_body_two initial_world demo_graph demo_llm_options_two
                demo_world_enhance_two Hrun) eq_refl Hcanon)) as Hevents.
  vm_compute in Hevents. vm_compute. exact Hevents.
Defined.

Lemma enhance_calls_service_once_witness :
  events (snd (enhance_graph_endpoint (H := demo_runtime) demo_enhance_env
                 demo_enhance_body initial_world))
  = events demo_world_enhance ++
      [CallEnhance demo_graph demo_llm_options;
       Log "Enhance result: success=%s, enhancements=%d, applied=%d, errors=%s"
         [VBool false; VInt 2; VInt 1; VList [VStr "model unavailable"]]].
Proof.
  assert (Hrun : enhance_build (H := demo_runtime) demo_enhance_body initial_world
                 = (Ok (demo_graph, demo_llm_options), demo_world_enhance))
    by (vm_compute; reflexivity).
  pose proof (proj1 (proj2 (enhance_calls_service_once (H := demo_runtime)
                demo_enhance_env demo_enhance_body initial_world demo_graph
                demo_llm_options demo_world_enhance Hrun))) as Hevents.
  vm_compute in Hevents. vm_compute. exact Hevents.
Defined.

(** ** More on the ontology registry *)

Section MoreOntology.
Context `{PyRuntime}.

(** X19. For an id the registry does not know, and for an entry whose
    url is missing or empty, the ontology fetch answers 404 and leaves
    the world as it was: the remote host is not contacted. *)
Theorem ontology_not_found_no_fetch env ontologies ontology_id w :
  match ontologies !! ontology_id with
  | None => True
  | Some ontology =>
      OntologyInfo.url ontology = None
      \/ OntologyInfo.url ontology = Some EmptyString
  end ->
  exists detail,
    get_ontology env ontologies ontology_id w
    = (Raise (HTTPException HTTP_404_NOT_FOUND
                ("Ontology '" +:+ ontology_id +:+ detail)), w).
Proof.
  unfold get_ontology.
  destruct (ontologies !! ontology_id) as [ontology|]; [|eauto].
  intros [-> | ->]; eauto.
Qed.

(** X20. For an entry with a non-empty url the ontology fetch opens that
    url exactly once, with a timeout of 20, and does nothing else to the
    world, whether the read and the decoders succeed or fail. *)
Theorem ontology_single_fetch env ontologies ontology_id ontology url w :
  ontologies !! ontology_id = Some ontology ->
  OntologyInfo.url ontology = Some url ->
  url <> EmptyString ->
  snd (get_ontology env ontologies ontology_id w)
  = World (_last_device_uids_by_id w) (events w ++ [CallUrlopen url 20]).
Proof.
  intros Hknown Hurl Hne.
  by rewrite (get_ontology_fetch_eq _ _ _ ontology url w Hknown Hurl Hne).
Qed.

(** X21. JSON comes first: a body that [json.loads] decodes is answered
    with that value, whatever the YAML decoder would make of it.  After a
    [JSONDecodeError] the answer is the value of [yaml.safe_load] on the
    body decoded as UTF-8 with replacement, and a [YAMLError] of it
    becomes the 502 error naming the ontology and the YAML cause. *)
Theorem ontology_decoding_order env ontologies ontology_id ontology url payload_raw w :
  ontologies !! ontology_id = Some ontology ->
  OntologyInfo.url ontology = Some url ->
  url <> EmptyString ->
  urlopen_read env url 20 = Ok payload_raw ->
  (forall v, json_loads payload_raw = Ok v ->
     fst (get_ontology env ontologies ontology_id w) = Ok v)
  /\ (forall msg v,
        json_loads payload_raw = Raise (Exn JSONDecodeError msg) ->
        yaml_safe_load (decode_utf8_replace payload_raw) = Ok v ->
        fst (get_ontology env ontologies ontology_id w) = Ok v)
  /\ (forall msg msg',
        json_loads payload_raw = Raise (Exn JSONDecodeError msg) ->
        yaml_safe_load (decode_utf8_replace payload_raw)
        = Raise (Exn YAMLError msg') ->
        fst (get_ontology env ontologies ontology_id w)
        = Raise (HTTPException HTTP_502_BAD_GATEWAY
                   ("Failed to fetch ontology '" +:+ ontology_id +:+ "': "
                      +:+ msg'))).
Proof.
  intros Hknown Hurl Hne Hread.
  rewrite (get_ontology_fetch_eq _ _ _ ontology url w Hknown Hurl Hne), Hread.
  simpl. split; [|split].
  - by intros v ->.
  - by intros msg v -> ->.
  - by intros msg msg' -> ->.
Qed.

Lemma caught_by_false_not_in handlers c msg :
  caught_by handlers (Exn c msg) = false -> c ∉ handlers.
Proof.
  simpl. intros Hnone Hin.
  assert (Hsome : existsb (issubclass c) handlers = true); [|congruence].
  apply existsb_exists. exists c. split; [by apply list_elem_of_In|].
  unfold issubclass. by rewrite bool_decide_eq_true_2.
Qed.

Lemma bad_gateway_raises ontology_id e c msg :
  bad_gateway ontology_id e = Raise (Exn c msg) -> c ∉ gateway_classes.
Proof.
  unfold bad_gateway. destruct (caught_by _ e) eqn:Hcaught; [done|].
  intros He; inversion He; subst. by eapply caught_by_false_not_in.
Qed.

(** X22. Whatever the registry, the remote host and the decoders do, an
    [OSError], a [JSONDecodeError] or a [YAMLError] never leaves the
    ontology fetch: an exception that does leave it belongs to another
    class. *)
Theorem ontology_handled_never_escape env ontologies ontology_id w c msg :
  fst (get_ontology env ontologies ontology_id w) = Raise (Exn c msg) ->
  c <> OSError /\ c <> JSONDecodeError /\ c <> YAMLError.
Proof.
  intros Hrun.
  assert (Hnotin : c ∉ gateway_classes).
  { destruct (ontologies !! ontology_id) as [ontology|] eqn:Hknown;
      [|unfold get_ontology in Hrun; by rewrite Hknown in Hrun].
    destruct (OntologyInfo.url ontology) as [[|ch rest]|] eqn:Hurl;
      [unfold get_ontology in Hrun; by rewrite Hknown, Hurl in Hrun| |
       unfold get_ontology in Hrun; by rewrite Hknown, Hurl in Hrun].
    rewrite (get_ontology_fetch_eq _ _ _ ontology _ w Hknown Hurl) in Hrun by done.
    simpl in Hrun.
    destruct (urlopen_read _ _ _) as [payload_raw|e];
      [|by eapply bad_gateway_raises].
    destruct (json_loads payload_raw) as [v|e]; [done|].
    destruct (caught_by [JSONDecodeError] e); [|by eapply bad_gateway_raises].
    destruct (yaml_safe_load _) as [v|e']; [done|by eapply bad_gateway_raises]. }
  unfold gateway_classes in Hnotin.
  repeat split; intros ->; apply Hnotin; repeat constructor.
Qed.

(** X23. An exception of the read that is neither an [OSError], a
    [JSONDecodeError] nor a [YAMLError], such as the
    [http.client.IncompleteRead] of a connection cut short, leaves the
    ontology fetch as it is, not as the 502 error; the decoders are not
    run. *)
Theorem ontology_unhandled_read_escapes env ontologies ontology_id ontology url e w :
  ontologies !! ontology_id = Some ontology ->
  OntologyInfo.url ontology = Some url ->
  url <> EmptyString ->
  urlopen_read env url 20 = Raise e ->
  caught_by gateway_classes e = false ->
  fst (get_ontology env ontologies ontology_id w) = Raise e.
Proof.
  intros Hknown Hurl Hne Hread Hcaught.
  rewrite (get_ontology_fetch_eq _ _ _ ontology url w Hknown Hurl Hne), Hread.
  simpl. unfold bad_gateway. fold gateway_classes. by rewrite Hcaught.
Qed.

(** X24. The listing of the registry holds exactly the registered
    entries, as many as the registry has ids.  When every entry is filed
    under its own id, a listed entry with a non-empty url can be used by
    its id: a classify topology giving only that id gets that url, and an
    ontology fetch of that id opens that url. *)
Theorem listed_ontologies_usable env ontologies :
  (forall o, o ∈ list_ontologies ontologies <-> exists k, ontologies !! k = Some o)
  /\ length (list_ontologies ontologies) = size ontologies
  /\ (keyed_by_id ontologies ->
      forall o u,
        o ∈ list_ontologies ontologies ->
        OntologyInfo.url o = Some u ->
        u <> EmptyString ->
        (forall topology,
            topology !! "id" = Some (VStr (OntologyInfo.id o)) ->
            get_truthy topology "url" = false ->
            get_truthy topology "content" = false ->
            classify_topology_payload ontologies topology !! "url" = Some (VStr u))
        /\ (forall w,
              events (snd (get_ontology env ontologies (OntologyInfo.id o) w))
              = events w ++ [CallUrlopen u 20])).
Proof.
  assert (Hmem : forall o, o ∈ list_ontologies ontologies
                           <-> exists k, ontologies !! k = Some o).
  { intros o. unfold list_ontologies. rewrite list_elem_of_fmap. split.
    - intros ([k o'] & -> & Hin). exists k. by apply elem_of_map_to_list.
    - intros [k Hk]. exists (k, o). split; [done|]. by apply elem_of_map_to_list. }
  split; [done|]. split.
  - unfold list_ontologies. by rewrite length_fmap, length_map_to_list.
  - intros Hkeyed o u Hin Hu Hne.
    apply Hmem in Hin as [k Hk]. rewrite (Hkeyed k o Hk).
    split.
    + intros topology Hid Hurl Hcontent.
      rewrite (topology_payload_resolved ontologies topology k u); try done.
      * apply lookup_insert_eq.
      * unfold known_url. rewrite Hk, Hu. by destruct u.
    + intros w. by rewrite (get_ontology_fetch_eq _ _ _ o u w Hk Hu Hne).
Qed.

(** X25. The status endpoint reports the backend and the model exactly
    when both imports succeed, and they are then the backend and the model
    an enhance request without options is given; when an import is missing
    it reports neither. *)
Theorem llm_status_consistent import_torch import_transformers status :
  get_llm_status import_torch import_transformers = Ok status ->
  (LLMStatusResponse.available status = true
   <-> import_torch = Imported /\ import_transformers = Imported)
  /\ (LLMStatusResponse.available status = false ->
      LLMStatusResponse.backend status = None
      /\ LLMStatusResponse.model status = None)
  /\ (LLMStatusResponse.available status = true ->
      exists backend model,
        LLMStatusResponse.backend status = Some backend
        /\ LLMStatusResponse.model status = Some model
        /\ enhance_llm_options ∅
           = Ok (LLMOptions.mk (VStr backend) (VStr model)
                   (VStr "http://localhost:11434/v1") float_0_7 10 false)).
Proof.
  unfold get_llm_status.
  destruct import_torch as [|msg|e]; [|intros Hs; inversion Hs; subst; simpl|done].
  - destruct import_transformers as [|msg|e];
      [|intros Hs; inversion Hs; subst; simpl|done].
    + intros Hs; inversion Hs; subst; simpl.
      split; [done|]. split; [done|]. intros _. by do 2 eexists.
    + split; [split; [done|by intros [_ ?]]|]. by split.
  - split; [split; [done|by intros [? _]]|]. by split.
Qed.

End MoreOntology.

Lemma ontology_not_found_no_fetch_witness :
  exists detail,
    get_ontology (H := demo_runtime) (demo_env []) demo_registry "haystack" demo_world_X
    = (Raise (HTTPException HTTP_404_NOT_FOUND
                ("Ontology '" +:+ "haystack" +:+ detail)), demo_world_X).
Proof.
  apply (ontology_not_found_no_fetch (H := demo_runtime) (demo_env [])
           demo_registry "haystack" demo_world_X).
  vm_compute. by left.
Defined.

Lemma ontology_single_fetch_witness :
  snd (get_ontology (H := demo_runtime) demo_reset_env _ONTOLOGIES "brick_v1.4.4"
         demo_world_X)
  = World (_last_device_uids_by_id demo_world_X)
      (events demo_world_X
         ++ [CallUrlopen "https://brickschema.org/schema/1.4.4/Brick.jsonld" 20]).
Proof.
  refine (ontology_single_fetch (H := demo_runtime) demo_reset_env _ONTOLOGIES
            "brick_v1.4.4" demo_brick
            "https://brickschema.org/schema/1.4.4/Brick.jsonld" demo_world_X _ _ _);
    try (vm_compute; reflexivity).
  discriminate.
Defined.

Lemma ontology_decoding_order_witness :
  fst (get_ontology (H := demo_runtime)
         (demo_services (demo_scan []) (Ok [Byte.x34; Byte.x32]) demo_enhanced)
         _ONTOLOGIES "brick_v1.4.4" initial_world)
  = Ok (VInt 42).
Proof.
  refine (proj1 (ontology_decoding_order (H := demo_runtime)
                   (demo_services (demo_scan []) (Ok [Byte.x34; Byte.x32]) demo_enhanced)
                   _ONTOLOGIES "brick_v1.4.4" demo_brick
                   "https://brickschema.org/schema/1.4.4/Brick.jsonld"
                   [Byte.x34; Byte.x32] initial_world _ _ _ _) (VInt 42) _);
    try (vm_compute; reflexivity).
  discriminate.
Defined.

Lemma ontology_handled_never_escape_witness :
  UnicodeDecodeError <> OSError
  /\ UnicodeDecodeError <> JSONDecodeError
  /\ UnicodeDecodeError <> YAMLError.
Proof.
  refine (ontology_handled_never_escape (H := demo_runtime)
            (demo_services (demo_scan []) (Ok [Byte.xff]) demo_enhanced)
            _ONTOLOGIES "brick_v1.4.4" initial_world UnicodeDecodeError
            "'utf-8' codec can't decode byte 0xff in position 0: invalid start byte" _).
  vm_compute; reflexivity.
Defined.

Lemma ontology_unhandled_read_escapes_witness :
  fst (get_ontology (H := demo_runtime) demo_reset_env _ONTOLOGIES "brick_v1.4.4"
         initial_world)
  = Raise (Exn IncompleteRead "IncompleteRead(0 bytes read, 17 more expected)").
Proof.
  refine (ontology_unhandled_read_escapes (H := demo_runtime) demo_reset_env
            _ONTOLOGIES "brick_v1.4.4" demo_brick
            "https://brickschema.org/schema/1.4.4/Brick.jsonld" _ initial_world
            _ _ _ _ _);
    try (vm_compute; reflexivity).
  discriminate.
Defined.

Lemma listed_ontologies_usable_witness :
  classify_topology_payload _ONTOLOGIES {[ "id" := VStr "brick_v1.4.4" ]} !! "url"
  = Some (VStr "https://brickschema.org/schema/1.4.4/Brick.jsonld").
Proof.
  refine (proj1 (proj2 (proj2 (listed_ontologies_usable (H := demo_runtime)
                                 (demo_env []) _ONTOLOGIES)) _ demo_brick
                   "https://brickschema.org/schema/1.4.4/Brick.jsonld" _ _ _)
            {[ "id" := VStr "brick_v1.4.4" ]} _ _ _);
    try (vm_compute; reflexivity).
  - intros k o Hk. unfold _ONTOLOGIES in Hk.
    apply lookup_singleton_Some in Hk as [<- <-]. reflexivity.
  - apply (proj1 (listed_ontologies_usable (H := demo_runtime) (demo_env [])
                    _ONTOLOGIES)).
    exists "brick_v1.4.4". vm_compute; reflexivity.
  - discriminate.
Defined.

Lemma llm_status_consistent_witness :
  exists backend model,
    Some "transformers" = Some backend
    /\ Some "HuggingFaceTB/SmolLM2-1.7B-Instruct" = Some model
    /\ enhance_llm_options (H := demo_runtime) ∅
       = Ok (LLMOptions.mk (VStr backend) (VStr model)
               (VStr "http://localhost:11434/v1") float_0_7 10 false).
Proof.
  refine (proj2 (proj2 (llm_status_consistent (H := demo_runtime) Imported Imported
                          (LLMStatusResponse.mk true (Some "transformers")
                             (Some "HuggingFaceTB/SmolLM2-1.7B-Instruct")) _)) _);
    reflexivity.
Defined.

Lemma census_ignores_prior_state_witness :
  _last_device_uids_by_id
    (snd (discover_census (H := demo_runtime)
            (demo_env [demo_device "Y" (Some (IdStr "7"))]) 60 None None initial_world))
  = _last_device_uids_by_id
      (snd (discover_census (H := demo_runtime)
              (demo_env [demo_device "Y" (Some (IdStr "7"))]) 60 None None demo_world_X)).
Proof.
  refine (proj2 (census_ignores_prior_state (H := demo_runtime)
                   (demo_env [demo_device "Y" (Some (IdStr "7"))]) 60 None None
                   initial_world demo_world_X) [demo_entry "Y" 7] _).
  vm_compute; reflexivity.
Defined.
